(* ===== verification/_CoqProject ===== *)
-Q . S2P
Prelude.v
PyFloat.v
PyValue.v
TrimPrecision.v
Reducer.v
World.v
Pipeline.v
