(* ===== verification/Prelude.v ===== *)
(** * atip-data-prep, layer generation: a verification development

    The program is [src/layers/generate_layers.py], a Python script that
    builds four map-tile layers (schools, hospitals, the major road network,
    parliamentary constituencies).  For each layer it deletes the files of a
    previous run, calls external tools (osmium, wget, unzip, ogr2ogr,
    tippecanoe) through [run], and for three of the four layers rewrites the
    intermediate GeoJSON file in place: [remove_extra_properties] keeps only
    the [name] property of every feature, the clean-up block of [makeMRN]
    deletes the collection's [name] and [crs] members, renames [name1] to
    [name] and rounds every coordinate with [trim_precision].

    ** Files, in dependency order

    - [Prelude] (this file): the [result] type for Python exceptions with
      stdpp's monad notations, the lemmas on [mapM] that every loop of the
      program uses, string lemmas for the f-string paths, facts on powers of
      two, and the hint database [py].
    - [PyFloat]: Python's [float] as an IEEE 754 binary64 value (sign, integer
      mantissa, binary exponent, all in [Z]) and the builtin [round(x, 6)]
      as CPython computes it: the value is rounded half-even to an integer
      number of millionths ([dtoa] mode 3), and that decimal is converted
      back to the nearest binary64 ([strtod]).  Nothing is approximated by
      rationals or reals: [round6] computes on the mantissa and exponent.
    - [PyValue]: the values [json.load] returns ([pyval]: None, bool, int,
      float, str, list, dict), dictionaries as insertion-ordered association
      lists, Python's truth test, subscripting, [dict.get], item assignment,
      [del], iteration, and the exceptions these raise ([exn]).
    - [TrimPrecision]: [trim_precision] (lines 211-217) and its theorems.
    - [Reducer]: the loop bodies and the in-memory part of
      [remove_extra_properties] (lines 192-206) and of the clean-up block of
      [makeMRN] (lines 114-130); the property policy of the specification as
      an abstract function and the refinement theorems.
    - [World]: the state the script runs in: files and directories, standard
      output, the trace of external commands, the state of the outside world;
      the external tools as a type class [Tools]; the effect monad [M] (state
      that survives an exception, like Python's); [os.remove],
      [shutil.rmtree], [open]/[json.load], [open]/[json.dumps], [print] and
      [run] (lines 186-188); the specifications [silent], [runs],
      [announces], [keeps_files] and [files_only] of programs with their
      composition lemmas, and the tactics [solve_silent], [solve_runs],
      [solve_announces] and [solve_files_only] that apply them.
    - [Pipeline]: [remove_extra_properties], [generatePolygonAmenity],
      [makeMRN], [makeParliamentaryConstituencies] and [main] (lines 27-35,
      the four calls after [parse_args]) as programs of [M], and the theorems
      on their command sequences, failures and files; the command lines of
      the source as named lists ([mrn_wget], [constituencies_ogr2ogr], ...)
      and the fourteen commands of a run written out ([all_commands]); a
      concrete instance of [Tools] ([demo_tools]) and concrete directories
      ([demo_world], [demo_world_roads]) at which the theorems are
      instantiated.

    ** How the model corresponds to the code

    Every Python function is one definition with the same name.  A Python
    object that [json.load] returns is a tree (no sharing), so the in-place
    updates of the script ([feature["properties"] = props], [del gj["name"]])
    are modelled as functional updates that keep the position of the key in
    the dictionary, which is what [json.dumps] later prints.  A raised
    exception is [Raise e]; statements after it do not run; the effects before
    it stay.  The bare [try: ... except: pass] blocks are [try_pass].
    An external command is a call of [tool_exec] of the class [Tools]: the
    theorems hold for every behaviour of the tools, and the witnesses run the
    pipeline against a concrete instance.  The class [Rounding] is what
    [TrimPrecision] asks of the rounding of one coordinate (it keeps binary64
    values well formed and is idempotent); [PyFloat] proves that [round6] is
    an instance.

    ** What the theorems show

    - [PyFloat]: [round6] keeps values well formed ([round6_wf]), never
      overflows ([round6_finite]), keeps the sign ([round6_neg]), is within
      half a millionth and half a unit in the last place of its argument
      ([round6_accuracy]), is the identity on values of magnitude at least
      2^33 ([round6_large]), is idempotent ([round6_round6],
      [round6_fixed_points]) and leaves every number written with at most six
      decimals as [json.load] reads it ([round6_decimal]).
      [round6_spec_values] compares the model with CPython, mantissa and
      exponent, on the values of the specification and on values that round
      up, carry, or are exact ties.
    - [PyValue]: the dictionary operations keep keys unique and in order;
      lookup after assignment and deletion, members of well-formed values.
    - [TrimPrecision]: the function returns exactly on nested lists of floats
      and raises on the first other leaf in depth-first order (an [int] leaf
      included); the result has the shape of the input; every leaf is the
      [round6] of the input leaf; the function is idempotent.
    - [Reducer]: each loop body implements the property policy; the loop of
      [remove_extra_properties] leaves no property but [name]
      ([remove_extra_properties_feature_keys]) and is idempotent; the loop
      body of [makeMRN] returns exactly on the features of the expected
      shape ([makeMRN_feature_Ok]) and is not idempotent: a second pass
      empties the properties ([makeMRN_feature_twice]); the collection
      members [name] and [crs] are gone after the clean-up of [makeMRN],
      which therefore cannot run twice.
    - [World]: the laws of the monad, what each file operation does when it
      returns and when it raises, the world in which the rest of a program
      runs after a command that returned ([run_bind_Ok]) and after a
      clean-up ([try_pass_bind]), and the calculus of [silent], [runs],
      [announces] and [files_only].
    - [Pipeline]: the external commands run in the order of the source
      ([main_runs]) and each is announced on standard output
      ([main_announces]).  For each layer, one theorem states exactly when
      the layer returns and in which world: every command exits with status
      0 on the files the step before it left, the file that is rewritten
      holds a JSON value on which the reduction returns, and the tile builder
      starts on the files the converter left with the reduced value written
      in place ([generatePolygonAmenity_tiles], [makeMRN_tiles]); the layer of
      the constituencies has no rewrite
      ([makeParliamentaryConstituencies_tiles]).  A failing command stops the
      run, a failing reduction leaves the file untouched, the tile builder is
      not called after a bad coordinate, and the clean-up of previous files
      stops at the first file or directory that is absent
      ([generatePolygonAmenity_clean_stops], [makeMRN_clean_partial]).

    A theorem that is stated with hypotheses is followed by a lemma named
    [_witness] that applies it to concrete data, so that the hypotheses are
    seen to hold somewhere.  Where the code departs from the specification
    (an [int] coordinate, a second run of the road network clean-up, a
    [null] property mapping, stale files after a partial clean-up) the
    theorem states what the code does.

    ** Bounds and fuel

    No definition uses fuel: [trim_precision] is structurally recursive on
    [pyval] (nested through [mapM]); Python's recursion limit (1000 frames
    by default) is not modelled, [json.load] reaches it first on input that
    deep.  Floats are binary64: 53-bit mantissa, exponent of the unit in the
    last place between -1074 and 971.  Integers are Python's unbounded [int]
    ([Z]).

    ** Not modelled

    [argparse] (lines 15-23: [main] takes the namespace that [parse_args]
    returns as its parameter), the text that [json.dumps] prints and
    [json.load] parses (a file holds the parsed value, and only the reading
    of a decimal number as a binary64 is modelled, [float_of_decimal]), the
    contents of non-JSON files, the behaviour of the external tools (any
    instance of [Tools]) and what they print (standard output holds the lines
    of the script only), file permissions and missing parent directories when
    a file is opened for writing (the script writes only to paths it has just
    read), Python's recursion limit and memory exhaustion.

    Two simplifications of the library calls: a command that cannot be
    started raises [OSError], the class of the exceptions [subprocess.run]
    raises then ([FileNotFoundError], [PermissionError]), and
    [shutil.rmtree] removes a directory and everything below it in one step
    (a removal that fails half way is not modelled).  No theorem depends on
    which of the two exceptions is raised; the script has no handler for
    either. *)

From Stdlib Require Import ZArith Lia.
From stdpp Require Import base option list strings.

(** * Results of computations that can raise *)

Inductive result (E A : Type) : Type :=
  | Ok (a : A)
  | Raise (e : E).
Arguments Ok {E A} a.
Arguments Raise {E A} e.

#[export] Instance result_ret {E} : MRet (result E) := λ A a, Ok a.
#[export] Instance result_bind {E} : MBind (result E) := λ A B f m,
  match m with Ok a => f a | Raise e => Raise e end.
#[export] Instance result_fmap {E} : FMap (result E) := λ A B f m,
  match m with Ok a => Ok (f a) | Raise e => Raise e end.

Definition is_Ok {E A} (m : result E A) : bool :=
  match m with Ok _ => true | Raise _ => false end.

Definition result_to_option {E A} (m : result E A) : option A :=
  match m with Ok a => Some a | Raise _ => None end.

#[export] Instance result_eq_dec {E A} `{EqDecision E, EqDecision A} :
  EqDecision (result E A).
Proof. solve_decision. Defined.

(** The hint database of the development: the facts that close the side
    conditions of the component lemmas. *)
Create HintDb py discriminated.

(** * Lemmas on [result] *)

Section result.
Context {E A B : Type}.
Implicit Types (m : result E A) (f : A → result E B) (g : A → B).

Lemma bind_Ok m f b : m ≫= f = Ok b ↔ ∃ a, m = Ok a ∧ f a = Ok b.
Proof.
  destruct m as [a|e]; simpl; split.
  - eauto.
  - by intros (? & [= <-] & ?).
  - done.
  - by intros (? & [=] & ?).
Qed.

Lemma bind_Raise m f e :
  m ≫= f = Raise e ↔ m = Raise e ∨ ∃ a, m = Ok a ∧ f a = Raise e.
Proof.
  destruct m as [a|e']; simpl; split.
  - eauto.
  - by intros [[=]|(? & [= <-] & ?)].
  - intros [= ->]. by left.
  - by intros [[= ->]|(? & [=] & ?)].
Qed.

Lemma fmap_Ok g m b : g <$> m = Ok b ↔ ∃ a, m = Ok a ∧ b = g a.
Proof.
  destruct m as [a|e]; simpl; split.
  - intros [= <-]. eauto.
  - by intros (? & [= <-] & ->).
  - done.
  - by intros (? & [=] & ?).
Qed.

Lemma fmap_Raise g m e : g <$> m = Raise e ↔ m = Raise e.
Proof. destruct m; simpl; split; by intros [=]; subst. Qed.

Lemma is_Ok_true m : is_Ok m = true ↔ ∃ a, m = Ok a.
Proof. destruct m; simpl; split; eauto; [done | by intros [? [=]]]. Qed.

Lemma is_Ok_false m : is_Ok m = false ↔ ∃ e, m = Raise e.
Proof. destruct m; simpl; split; eauto; [done | by intros [? [=]]]. Qed.

Lemma is_Ok_fmap g m : is_Ok (g <$> m) = is_Ok m.
Proof. by destruct m. Qed.

Lemma is_Ok_bind m f :
  is_Ok (m ≫= f) = match m with Ok a => is_Ok (f a) | Raise _ => false end.
Proof. by destruct m. Qed.
End result.

(** * [mapM] at [result]: a loop that stops at the first exception *)

Section mapM.
Context {E A B : Type} (f : A → result E B).
Implicit Types (l : list A) (k : list B).

Lemma mapM_nil : mapM f [] = Ok [].
Proof. done. Qed.

Lemma mapM_cons x l :
  mapM f (x :: l) = (y ← f x; k ← mapM f l; Ok (y :: k)).
Proof. done. Qed.

Lemma mapM_Ok l k : mapM f l = Ok k ↔ Forall2 (λ x y, f x = Ok y) l k.
Proof.
  revert k. induction l as [|x l IH]; intros k; rewrite ?mapM_cons.
  - split; [intros [= <-]; constructor | by inversion 1].
  - rewrite bind_Ok. setoid_rewrite bind_Ok. setoid_rewrite IH. split.
    + intros (y & Hy & k' & Hk' & [= <-]). by constructor.
    + inversion 1; subst. eauto 10.
Qed.

Lemma mapM_length l k : mapM f l = Ok k → length k = length l.
Proof. rewrite mapM_Ok. intros H. symmetry. by eapply Forall2_length. Qed.

Lemma mapM_is_Ok l : is_Ok (mapM f l) = forallb (λ x, is_Ok (f x)) l.
Proof.
  induction l as [|x l IH]; [done|]. rewrite mapM_cons. simpl.
  destruct (f x); simpl; [|done]. rewrite <-IH. by destruct (mapM f l).
Qed.

Lemma mapM_app l1 l2 :
  mapM f (l1 ++ l2) = (k1 ← mapM f l1; k2 ← mapM f l2; Ok (k1 ++ k2)).
Proof.
  induction l1 as [|x l1 IH]; simpl app.
  - rewrite mapM_nil. simpl. by destruct (mapM f l2).
  - rewrite !mapM_cons, IH. destruct (f x); simpl; [|done].
    destruct (mapM f l1); simpl; [|done]. by destruct (mapM f l2).
Qed.

Lemma mapM_cons_Raise x l e :
  mapM f (x :: l) = Raise e ↔
  f x = Raise e ∨ (is_Ok (f x) = true ∧ mapM f l = Raise e).
Proof.
  rewrite mapM_cons. destruct (f x) as [y|e1]; simpl.
  - destruct (mapM f l) as [k|e2]; simpl; split.
    + done.
    + by intros [?|[_ ?]].
    + intros [= ->]. by right.
    + by intros [?|[_ [= ->]]].
  - split; [intros [= ->]; by left | by intros [[= ->]|[? _]]].
Qed.

(** The exception of a loop is the exception of the first element that
    raises: the elements before it returned, the ones after it never ran. *)
Lemma mapM_Raise l e :
  mapM f l = Raise e ↔
  ∃ l1 x l2, l = l1 ++ x :: l2 ∧ forallb (λ y, is_Ok (f y)) l1 = true ∧
             f x = Raise e.
Proof.
  split.
  - induction l as [|x l IH]; [done|].
    rewrite mapM_cons_Raise. intros [Hx|[Hx Hl]].
    + by exists [], x, l.
    + destruct (IH Hl) as (l1 & x' & l2 & -> & Hok & Hr).
      exists (x :: l1), x', l2. simpl. by rewrite Hx, Hok.
  - intros (l1 & x & l2 & -> & Hok & Hr). rewrite mapM_app.
    rewrite <-mapM_is_Ok in Hok. apply is_Ok_true in Hok as [k1 ->].
    rewrite mapM_cons, Hr. done.
Qed.
End mapM.

Section mapM_more.
Context {E A : Type}.

Lemma mapM_ext_Forall {B} (f g : A → result E B) l :
  Forall (λ x, f x = g x) l → mapM f l = mapM g l.
Proof.
  induction 1 as [|x l Hx _ IH]; [done|].
  by rewrite !mapM_cons, Hx, IH.
Qed.

(** A loop whose body returns its argument returns the list itself. *)
Lemma mapM_fixed (f : A → result E A) l :
  Forall (λ x, f x = Ok x) l → mapM f l = Ok l.
Proof.
  induction 1 as [|x l Hx _ IH]; [done|]. by rewrite mapM_cons, Hx, IH.
Qed.

Lemma mapM_pure {B} (g : A → B) l :
  mapM (λ x, Ok (E:=E) (g x)) l = Ok (g <$> l).
Proof.
  induction l as [|x l IH]; [done|]. by rewrite mapM_cons, IH.
Qed.
End mapM_more.

(** * Strings: the paths built by f-strings *)

Lemma string_app_cons a (s t : string) : String a s +:+ t = String a (s +:+ t).
Proof. done. Qed.

Lemma string_app_inj_l (s t1 t2 : string) : s +:+ t1 = s +:+ t2 → t1 = t2.
Proof. apply (inj (String.app s)). Qed.

Lemma string_app_length (s t : string) :
  String.length (s +:+ t) = String.length s + String.length t.
Proof.
  induction s as [|a s IH]; [done|]. rewrite string_app_cons. simpl.
  by rewrite IH.
Qed.

Lemma string_app_nil_r (s : string) : s +:+ "" = s.
Proof.
  induction s as [|a s IH]; [done|]. by rewrite string_app_cons, IH.
Qed.

Lemma string_app_assoc (s t u : string) : s +:+ (t +:+ u) = (s +:+ t) +:+ u.
Proof.
  induction s as [|a s IH]; [done|]. by rewrite !string_app_cons, IH.
Qed.

(** Two paths with the same stem and different suffixes are different. *)
Lemma string_app_ne_l (s t1 t2 : string) : t1 ≠ t2 → s +:+ t1 ≠ s +:+ t2.
Proof. intros Hne Heq. by apply Hne, (string_app_inj_l s). Qed.

#[export] Hint Resolve string_app_ne_l : py.

(** * Integers: powers of two *)

Section pow2.
#[local] Open Scope Z_scope.
Implicit Types (a b n : Z).

Lemma pow2_pos n : 0 ≤ n → 0 < 2 ^ n.
Proof. intros. by apply Z.pow_pos_nonneg. Qed.

Lemma pow2_succ n : 0 ≤ n → 2 ^ (n + 1) = 2 * 2 ^ n.
Proof. intros. rewrite Z.pow_add_r by lia. lia. Qed.

Lemma pow2_add a b : 0 ≤ a → 0 ≤ b → 2 ^ (a + b) = 2 ^ a * 2 ^ b.
Proof. intros. by apply Z.pow_add_r. Qed.

Lemma pow2_le a b : 0 ≤ a ≤ b → 2 ^ a ≤ 2 ^ b.
Proof. intros. apply Z.pow_le_mono_r; lia. Qed.
End pow2.

#[export] Hint Resolve pow2_pos pow2_le : py.
