(* ===== verification/PyFloat.v ===== *)
(** * PyFloat: Python's [float] and the builtin [round(x, 6)]

    [trim_precision] (src/layers/generate_layers.py, line 215) calls
    [round(data, 6)] on every coordinate.  A Python [float] is an IEEE 754
    binary64 value; this file models it exactly, as a sign, an integer
    mantissa and a binary exponent, and models [round] with 6 digits the way
    CPython computes it ([float.__round__], [double_round]): the value is
    first rounded, half to even, to an integer number of millionths (the
    correctly rounded decimal string of [_Py_dg_dtoa] in mode 3), and that
    decimal is then converted to the nearest binary64, half to even
    ([_Py_dg_strtod]).  NaN and the infinities are returned unchanged.

    All arithmetic is on [Z]; a finite value [Ffin neg m e] denotes
    [(-1)^neg * m * 2^e], and is measured in units of [2^emin], the smallest
    positive binary64, so that every finite value is an integer number of
    units ([units]). *)

From Stdlib Require Import ZArith Lia.
From stdpp Require Import base decidable numbers.
From S2P Require Import Prelude.

#[local] Open Scope Z_scope.

(** ** The format *)

(** Bits of the mantissa, smallest and largest exponent of the unit in the
    last place. *)
Definition prec : Z := 53.
Definition emin : Z := -1074.
Definition emax : Z := 971.

Inductive float : Type :=
  | Fnan
  | Finf (neg : bool)
  | Ffin (neg : bool) (m e : Z).

#[export] Instance float_eq_dec : EqDecision float.
Proof. solve_decision. Defined.

(** The canonical representation: a normal number has a mantissa of exactly
    [prec] bits, a subnormal number and zero have the exponent [emin]. *)
Definition canonical (m e : Z) : bool :=
  (0 <=? m) && (m <? 2 ^ prec) && (emin <=? e) && (e <=? emax) &&
  ((2 ^ (prec - 1) <=? m) || (e =? emin)).

Definition wf_float (x : float) : bool :=
  match x with
  | Ffin _ m e => canonical m e
  | _ => true
  end.

(** The magnitude of a finite value in units of [2^emin]. *)
Definition units (m e : Z) : Z := m * 2 ^ (e - emin).

(** [x != 0.0], the truth value of a float: both zeros are false, NaN is
    true. *)
Definition float_is_zero (x : float) : bool :=
  match x with
  | Ffin _ m _ => m =? 0
  | _ => false
  end.

Definition float_neg (x : float) : bool :=
  match x with
  | Ffin neg _ _ | Finf neg => neg
  | Fnan => false
  end.

(** ** Rounding a quotient to the nearest integer, ties to even *)

Definition rne_div (p q : Z) : Z :=
  let d := p / q in
  match 2 * (p mod q) ?= q with
  | Lt => d
  | Gt => d + 1
  | Eq => if Z.even d then d else d + 1
  end.

(** ** Decimal to binary: the nearest binary64 to [p / q] *)

(** The exponent (counted from [emin]) at which [t / q], a number of units,
    has a mantissa of at most [prec] bits: the least [s >= 0] with
    [t < 2^prec * q * 2^s]. *)
Definition ulp_shift (t q : Z) : Z :=
  let s0 := Z.log2 t - Z.log2 q - prec in
  if s0 <? 0 then 0
  else if t <? 2 ^ prec * (q * 2 ^ s0) then s0 else s0 + 1.

(** What [ulp_shift] computes: at the exponent [s] the mantissa of [t / q]
    has at most [prec] bits, and exactly [prec] bits unless [s] is 0 (the
    subnormal range). *)
Definition shift_ok (t q s : Z) : Prop :=
  0 ≤ s ∧ t < 2 ^ prec * (q * 2 ^ s) ∧ (0 < s → 2 ^ (prec - 1) * (q * 2 ^ s) ≤ t).

(** [nearest neg p q], for [0 <= p] and [0 < q]: the binary64 nearest to
    [(-1)^neg * p / q], ties to even; the mantissa that rounds up to
    [2^prec] moves to the next exponent, a value beyond the largest finite
    one becomes an infinity, a value below half the smallest one a zero of
    the same sign. *)
Definition nearest (neg : bool) (p q : Z) : float :=
  let t := p * 2 ^ (- emin) in
  let s := ulp_shift t q in
  let m := rne_div t (q * 2 ^ s) in
  let '(m, s) := if m =? 2 ^ prec then (2 ^ (prec - 1), s + 1) else (m, s) in
  if emax - emin <? s then Finf neg else Ffin neg m (s + emin).

(** The float of a JSON number [digits * 10^exp10], as [json.load] reads it. *)
Definition float_of_decimal (neg : bool) (digits exp10 : Z) : float :=
  if 0 <=? exp10 then nearest neg (digits * 10 ^ exp10) 1
  else nearest neg digits (10 ^ (- exp10)).

(** ** [round(x, 6)] *)

(** The value of [m * 2^e] in millionths, rounded half to even. *)
Definition millionths (m e : Z) : Z :=
  rne_div (units m e * 10 ^ 6) (2 ^ (- emin)).

Definition round6 (x : float) : float :=
  match x with
  | Ffin neg m e => nearest neg (millionths m e) (10 ^ 6)
  | Fnan | Finf _ => x
  end.

(** ** What the coordinate normaliser needs of a rounding function

    The theorems on nested coordinates are proved for any function with
    these two laws; [round6] is shown to have them below. *)
Class Rounding (r : float → float) : Prop := {
  rounding_wf x : wf_float x = true → wf_float (r x) = true;
  rounding_idem x : wf_float x = true → r (r x) = r x;
}.

(** ** Evaluation on the values of the specification *)

(** 51.5007384512, the latitude of the specification's example. *)
Definition x_lat : float := float_of_decimal false 515007384512 (-10).


(** 51.500738 is not a binary64: the result is the nearest one,
    7248084514565798 * 2^-47. *)
Example float_51_500738 :
  float_of_decimal false 51500738 (-6) = Ffin false 7248084514565798 (-47).
Proof. vm_compute. reflexivity. Qed.

(** An exact tie goes to the even digit: 2^-7 = 0.0078125 rounds to
    0.007812, and 3 * 2^-7 = 0.0234375 to 0.023438. *)
Example round6_tie_even_down :
  round6 (Ffin false (2 ^ 52) (-59)) = float_of_decimal false 7812 (-6).
Proof. vm_compute. reflexivity. Qed.

Example round6_tie_even_up :
  round6 (Ffin false (3 * 2 ^ 51) (-58)) = float_of_decimal false 23438 (-6).
Proof. vm_compute. reflexivity. Qed.

(** A negative value below half a millionth rounds to the negative zero. *)
Example round6_negative_zero :
  round6 (float_of_decimal true 1 (-9)) = Ffin true 0 emin.
Proof. vm_compute. reflexivity. Qed.

(** * Theorems *)

Section rne.
Implicit Types (p q m a b : Z).

Lemma rne_div_cases p q :
  0 < q →
  ∃ d r, p = q * d + r ∧ 0 ≤ r < q ∧
    ((2 * r < q ∧ rne_div p q = d) ∨
     (q < 2 * r ∧ rne_div p q = d + 1) ∨
     (2 * r = q ∧ Z.even d = true ∧ rne_div p q = d) ∨
     (2 * r = q ∧ Z.even d = false ∧ rne_div p q = d + 1)).
Proof.
  intros Hq. exists (p / q), (p mod q).
  pose proof (Z.div_mod p q ltac:(lia)) as Hdm.
  pose proof (Z.mod_pos_bound p q Hq) as Hr.
  split; [done|]. split; [done|]. unfold rne_div.
  destruct (Z.compare_spec (2 * (p mod q)) q) as [Heq|Hlt|Hgt].
  - destruct (Z.even (p / q)) eqn:He; [right; right; left | do 3 right]; done.
  - by left.
  - right; left. done.
Qed.

Lemma rne_div_error p q :
  0 < q → 2 * (rne_div p q * q - p) ≤ q ∧ 2 * (p - rne_div p q * q) ≤ q.
Proof.
  intros Hq. destruct (rne_div_cases p q Hq) as (d & r & -> & Hr & Hc).
  destruct Hc as [[? ->]|[[? ->]|[(? & _ & ->)|(? & _ & ->)]]]; lia.
Qed.

Lemma rne_div_unique p q m :
  0 < q → 2 * (m * q - p) < q → 2 * (p - m * q) < q → rne_div p q = m.
Proof.
  intros Hq H1 H2. destruct (rne_div_error p q Hq) as [H3 H4].
  set (m' := rne_div p q) in *. clearbody m'. nia.
Qed.

Lemma rne_div_exact q m : 0 < q → rne_div (m * q) q = m.
Proof. intros Hq. apply rne_div_unique; lia. Qed.

Lemma rne_div_ge p q a : 0 < q → a * q ≤ p → a ≤ rne_div p q.
Proof.
  intros Hq Ha. destruct (rne_div_error p q Hq) as [H3 H4].
  set (m' := rne_div p q) in *. clearbody m'. nia.
Qed.

Lemma rne_div_le p q b : 0 < q → p ≤ b * q → rne_div p q ≤ b.
Proof.
  intros Hq Hb. destruct (rne_div_error p q Hq) as [H3 H4].
  set (m' := rne_div p q) in *. clearbody m'. nia.
Qed.

Lemma rne_div_nonneg p q : 0 < q → 0 ≤ p → 0 ≤ rne_div p q.
Proof. intros. apply rne_div_ge; lia. Qed.

(** The quotient of a fraction does not depend on how it is written. *)
Lemma rne_div_scale p q c : 0 < q → 0 < c → rne_div (p * c) (q * c) = rne_div p q.
Proof.
  intros Hq Hc. unfold rne_div.
  rewrite Z.div_mul_cancel_r, Z.mul_mod_distr_r by lia.
  replace (2 * (p mod q * c)) with (2 * (p mod q) * c) by lia.
  by destruct (Z.compare_spec (2 * (p mod q)) q),
    (Z.compare_spec (2 * (p mod q) * c) (q * c)); try nia.
Qed.
End rne.
Lemma pow2_lt_inv a b : 0 ≤ b → 2 ^ a < 2 ^ b → a < b.
Proof. intros Hb H. apply (Z.pow_lt_mono_r_iff 2); lia. Qed.

Lemma pow2_prec : 2 ^ prec = 2 * 2 ^ (prec - 1).
Proof. reflexivity. Qed.

Lemma pow2_prec1_pos : 0 < 2 ^ (prec - 1).
Proof. reflexivity. Qed.

Section shift.
Implicit Types (t q s : Z).

Lemma ulp_shift_ok t q : 0 ≤ t → 0 < q → shift_ok t q (ulp_shift t q).
Proof.
  intros Ht Hq. unfold shift_ok, ulp_shift.
  pose proof (Z.log2_nonneg t) as Hlt. pose proof (Z.log2_nonneg q) as Hlq.
  destruct (Z.log2_spec q Hq) as [Hq1 Hq2].
  change (Z.succ (Z.log2 q)) with (Z.log2 q + 1) in Hq2.
  rewrite pow2_succ in Hq2 by done.
  assert (0 < 2 ^ Z.log2 q) as HA by by apply pow2_pos.
  destruct (Z.ltb_spec (Z.log2 t - Z.log2 q - prec) 0) as [Hs0|Hs0].
  - split; [done|]. split; [|lia]. rewrite Z.pow_0_r, Z.mul_1_r.
    destruct (decide (t = 0)) as [->|Hne]; [unfold prec; lia|].
    destruct (Z.log2_spec t ltac:(lia)) as [_ Ht2].
    assert (2 ^ Z.succ (Z.log2 t) ≤ 2 ^ (prec + Z.log2 q)) as Hle
      by (apply pow2_le; unfold prec in *; lia).
    rewrite pow2_add in Hle by (unfold prec; lia). nia.
  - assert (0 < t) as Htpos.
    { destruct (decide (t = 0)) as [->|]; [|lia]. simpl in Hs0. unfold prec in *. lia. }
    destruct (Z.log2_spec t Htpos) as [Ht1 Ht2].
    change (Z.succ (Z.log2 t)) with (Z.log2 t + 1) in Ht2.
    rewrite pow2_succ in Ht2 by done.
    set (s0 := Z.log2 t - Z.log2 q - prec) in *.
    assert (Z.log2 t = prec + (Z.log2 q + s0)) as Hlog by lia.
    rewrite Hlog, !pow2_add in Ht1, Ht2 by (unfold prec; lia).
    assert (0 < 2 ^ s0) as HB by by apply pow2_pos.
    pose proof pow2_prec as Hp. pose proof pow2_prec1_pos as Hp'.
    destruct (Z.ltb_spec t (2 ^ prec * (q * 2 ^ s0))) as [Hlt'|Hge];
      rewrite ?pow2_succ by done;
      set (A := 2 ^ Z.log2 q) in *; set (B := 2 ^ s0) in *;
      set (P := 2 ^ (prec - 1)) in *; rewrite Hp in *; clearbody A B P.
    + split; [done|]. split; [done|]. intros _. nia.
    + split; [lia|]. split; nia.
Qed.

Lemma shift_ok_unique t q s1 s2 :
  0 < q → shift_ok t q s1 → shift_ok t q s2 → s1 = s2.
Proof.
  assert (∀ s1 s2, 0 < q → shift_ok t q s1 → shift_ok t q s2 → s1 < s2 → False)
    as Hlt.
  { clear. intros s1 s2 Hq (Hs1 & Hu1 & _) (Hs2 & _ & Hl2) Hlt.
    specialize (Hl2 ltac:(lia)).
    assert (2 ^ (s1 + 1) ≤ 2 ^ s2) as Hle by (apply pow2_le; lia).
    rewrite pow2_succ in Hle by done.
    pose proof pow2_prec as Hp. pose proof pow2_prec1_pos as Hp'.
    assert (0 < 2 ^ s1) by by apply pow2_pos.
    set (A := 2 ^ s1) in *. set (B := 2 ^ s2) in *.
    set (P := 2 ^ (prec - 1)) in *. rewrite Hp in *. clearbody A B P. nia. }
  intros Hq H1 H2. destruct (Z.lt_trichotomy s1 s2) as [?|[?|?]]; [|done|];
    exfalso; eauto.
Qed.

Lemma ulp_shift_unique t q s : 0 ≤ t → 0 < q → shift_ok t q s → ulp_shift t q = s.
Proof. intros. eapply shift_ok_unique; eauto using ulp_shift_ok. Qed.

Lemma ulp_shift_scale t q c :
  0 ≤ t → 0 < q → 0 < c → ulp_shift (t * c) (q * c) = ulp_shift t q.
Proof.
  intros Ht Hq Hc. apply ulp_shift_unique; [nia..|]. unfold shift_ok.
  destruct (ulp_shift_ok t q Ht Hq) as (Hs & Hu & Hl).
  set (s := ulp_shift t q) in *. pose proof (pow2_pos s Hs).
  set (A := 2 ^ s) in *. set (P := 2 ^ prec) in *.
  set (P' := 2 ^ (prec - 1)) in *. clearbody s A P P'.
  split; [done|]. split.
  - apply (Z.mul_lt_mono_pos_r c) in Hu; lia.
  - intros Hs'. specialize (Hl Hs'). apply (Z.mul_le_mono_nonneg_r _ _ c) in Hl; lia.
Qed.
End shift.

(** ** Canonical values *)

Lemma canonical_spec m e :
  canonical m e = true ↔
  0 ≤ m < 2 ^ prec ∧ emin ≤ e ≤ emax ∧ (2 ^ (prec - 1) ≤ m ∨ e = emin).
Proof.
  unfold canonical.
  rewrite !andb_true_iff, orb_true_iff, !Z.leb_le, Z.ltb_lt, Z.eqb_eq. tauto.
Qed.

Lemma units_nonneg m e : 0 ≤ m → 0 ≤ units m e.
Proof. intros. unfold units. apply Z.mul_nonneg_nonneg; [done|]. apply Z.pow_nonneg. lia. Qed.

(** ** [nearest] *)

#[local] Notation U := (2 ^ (- emin)) (only parsing).

Lemma nearest_unfold neg p q :
  nearest neg p q =
  let s := ulp_shift (p * U) q in
  let m := rne_div (p * U) (q * 2 ^ s) in
  if m =? 2 ^ prec then
    if emax - emin <? s + 1 then Finf neg
    else Ffin neg (2 ^ (prec - 1)) (s + 1 + emin)
  else if emax - emin <? s then Finf neg else Ffin neg m (s + emin).
Proof. unfold nearest. cbv zeta. by destruct (_ =? 2 ^ prec). Qed.

Lemma U_pos : 0 < U.
Proof. reflexivity. Qed.

(** Two ways of writing the same fraction are read as the same float. *)
Lemma nearest_scale neg p q c :
  0 ≤ p → 0 < q → 0 < c → nearest neg (p * c) (q * c) = nearest neg p q.
Proof.
  intros Hp Hq Hc. rewrite !nearest_unfold. cbv zeta.
  pose proof U_pos as HU.
  replace (p * c * U) with (p * U * c) by lia.
  rewrite ulp_shift_scale by lia. set (s := ulp_shift _ _).
  replace (q * c * 2 ^ s) with (q * 2 ^ s * c) by lia.
  destruct (ulp_shift_ok (p * U) q ltac:(lia) Hq) as (Hs & _). fold s in Hs.
  pose proof (pow2_pos s Hs). by rewrite rne_div_scale by nia.
Qed.

(** The mantissa before the carry. *)
Lemma nearest_mantissa p q :
  0 ≤ p → 0 < q →
  let s := ulp_shift (p * U) q in
  let m := rne_div (p * U) (q * 2 ^ s) in
  0 ≤ s ∧ 0 ≤ m ≤ 2 ^ prec ∧ (0 < s → 2 ^ (prec - 1) ≤ m).
Proof.
  intros Hp Hq s m. pose proof U_pos as HU.
  assert (0 ≤ p * U) as Ht by lia.
  destruct (ulp_shift_ok (p * U) q Ht Hq) as (Hs & Hu & Hl). fold s in Hs, Hu, Hl.
  assert (0 < q * 2 ^ s) as HQ by (pose proof (pow2_pos s Hs); nia).
  split; [done|]. split; [split|].
  - apply rne_div_nonneg; lia.
  - apply rne_div_le; lia.
  - intros Hs'. apply rne_div_ge; [done|]. auto.
Qed.

Lemma nearest_wf neg p q : 0 ≤ p → 0 < q → wf_float (nearest neg p q) = true.
Proof.
  intros Hp Hq. rewrite nearest_unfold.
  destruct (nearest_mantissa p q Hp Hq) as (Hs & [Hm0 Hm1] & Hn).
  cbv zeta. set (s := ulp_shift _ _) in *. set (m := rne_div _ _) in *.
  clearbody s m. pose proof pow2_prec as Hpp. pose proof pow2_prec1_pos.
  destruct (Z.eqb_spec m (2 ^ prec)) as [->|Hne].
  - destruct (Z.ltb_spec (emax - emin) (s + 1)); [done|]. simpl.
    apply canonical_spec. unfold emin, emax in *. lia.
  - destruct (Z.ltb_spec (emax - emin) s); [done|]. simpl.
    apply canonical_spec. unfold emin, emax in *. lia.
Qed.

(** The value of the result, in units: the mantissa before the carry at the
    exponent before the carry. *)
Lemma nearest_units neg p q m e :
  0 ≤ p → 0 < q → nearest neg p q = Ffin neg m e →
  let s := ulp_shift (p * U) q in
  units m e = rne_div (p * U) (q * 2 ^ s) * 2 ^ s.
Proof.
  intros Hp Hq. rewrite nearest_unfold.
  destruct (nearest_mantissa p q Hp Hq) as (Hs & _ & _).
  cbv zeta. set (s := ulp_shift _ _) in *. set (m0 := rne_div _ _) in *.
  clearbody s m0. unfold units.
  destruct (Z.eqb_spec m0 (2 ^ prec)) as [->|Hne].
  - destruct (Z.ltb_spec (emax - emin) (s + 1)); [done|]. intros [= <- <-].
    replace (s + 1 + emin - emin) with (s + 1) by lia.
    rewrite pow2_succ, pow2_prec by done. lia.
  - destruct (Z.ltb_spec (emax - emin) s); [done|]. intros [= <- <-].
    by replace (s + emin - emin) with s by lia.
Qed.

(** A canonical value within less than half a unit in the last place of
    [p / q] is the nearest one. *)
Lemma nearest_unique neg p q m e :
  canonical m e = true → 0 ≤ p → 0 < q →
  let Q := q * 2 ^ (e - emin) in
  2 * (m * Q - p * U) < Q → 2 * (p * U - m * Q) < Q →
  (2 ^ (prec - 1) * Q ≤ p * U ∨ e = emin) →
  nearest neg p q = Ffin neg m e.
Proof.
  intros (Hm & He & Hn)%canonical_spec Hp Hq Q H1 H2 H3.
  pose proof U_pos as HU. assert (0 ≤ p * U) as Ht by lia.
  assert (0 < 2 ^ (e - emin)) as HA by (apply pow2_pos; lia).
  assert (0 < Q) as HQ by (unfold Q; nia).
  pose proof pow2_prec as Hpp. pose proof pow2_prec1_pos.
  assert (ulp_shift (p * U) q = e - emin) as Hs.
  { apply ulp_shift_unique; [done..|]. split; [lia|]. fold Q. split; [nia|].
    intros ?. destruct H3; [done|lia]. }
  rewrite nearest_unfold. cbv zeta. rewrite Hs. fold Q.
  rewrite (rne_div_unique (p * U) Q m) by done.
  destruct (Z.eqb_spec m (2 ^ prec)); [lia|].
  destruct (Z.ltb_spec (emax - emin) (e - emin)); [lia|].
  by replace (e - emin + emin) with e by lia.
Qed.

(** ** [round6] *)

#[local] Notation q6 := (10 ^ 6) (only parsing).

Lemma U_split : U = 2 ^ 19 * 2 ^ 1055.
Proof. reflexivity. Qed.

Lemma U_split' : U = 2 ^ 20 * 2 ^ 1054.
Proof. reflexivity. Qed.

Lemma millionths_nonneg m e : 0 ≤ m → 0 ≤ millionths m e.
Proof.
  intros Hm. unfold millionths. apply rne_div_nonneg; [apply U_pos|].
  pose proof (units_nonneg m e Hm). lia.
Qed.

(** [round(x, 6)] of a binary64 value is a binary64 value: the mantissa
    and the exponent of the result are in range and canonical. *)
Theorem round6_wf x : wf_float x = true → wf_float (round6 x) = true.
Proof.
  destruct x as [| |neg m e]; try done. simpl.
  intros (Hm & _)%canonical_spec. apply nearest_wf; [|done].
  apply millionths_nonneg. lia.
Qed.

Lemma round6_wf_witness : wf_float (round6 x_lat) = true.
Proof. apply (round6_wf x_lat). reflexivity. Defined.

(** The error of [millionths]: at most half a millionth. *)
Lemma millionths_error m e :
  let k := millionths m e in
  2 * (k * U - units m e * q6) ≤ U ∧ 2 * (units m e * q6 - k * U) ≤ U.
Proof. apply rne_div_error, U_pos. Qed.

(** A value of magnitude at least 2^33 is a multiple of 2^-19, and is
    its own rounding: the millionth nearest to it is closer to it than to
    its neighbours. *)
Theorem round6_large neg m e :
  canonical m e = true → -19 ≤ e → round6 (Ffin neg m e) = Ffin neg m e.
Proof.
  intros Hc He. pose proof Hc as (Hm & Hee & Hn)%canonical_spec. simpl.
  destruct Hn as [Hn|Hn]; [|unfold emin in *; lia].
  assert (0 ≤ millionths m e) as Hk by (apply millionths_nonneg; lia).
  destruct (millionths_error m e) as [E1 E2]. cbv zeta in E1, E2.
  apply nearest_unique; [done..| | |]; cbv zeta.
  all: set (k := millionths m e) in *; unfold units in *.
  all: assert (2 ^ 1055 ≤ 2 ^ (e - emin)) as HA
         by (apply pow2_le; unfold emin; lia).
  all: pose proof U_split as HU; pose proof (pow2_pos 1055 ltac:(lia)) as HA0.
  all: pose proof pow2_prec1_pos as HP.
  1,2: set (A := 2 ^ (e - emin)) in *; set (A0 := 2 ^ 1055) in *;
       set (Uv := U) in *; clearbody A A0 Uv k; nia.
  left. destruct (decide (m = 2 ^ (prec - 1))) as [->|Hne].
  - (* a power of two: the value is an integer number of millionths *)
    assert (2 ^ (prec - 1) * 2 ^ (e - emin) = 2 ^ (prec - 1 + e) * U) as Hex.
    { rewrite <-!pow2_add by (unfold prec, emin in *; lia). f_equal. lia. }
    assert (k = 2 ^ (prec - 1 + e) * q6) as ->; [|lia].
    unfold k, millionths, units. rewrite Hex.
    replace (2 ^ (prec - 1 + e) * U * q6) with (2 ^ (prec - 1 + e) * q6 * U)
      by lia.
    apply rne_div_exact, U_pos.
  - set (A := 2 ^ (e - emin)) in *; set (A0 := 2 ^ 1055) in *;
       set (Uv := U) in *; set (P := 2 ^ (prec - 1)) in *.
    clearbody A A0 Uv k P. nia.
Qed.

Lemma round6_large_witness :
  round6 (Ffin false (2 ^ 52 + 1) (-19)) = Ffin false (2 ^ 52 + 1) (-19).
Proof. apply (round6_large false (2 ^ 52 + 1) (-19)); [reflexivity | lia]. Defined.

(** Below 2^33 the binary64 nearest to a number of millionths is within less
    than half a millionth of it: rounding it again gives the same number of
    millionths. *)
Lemma millionths_nearest neg k m e :
  0 ≤ k → nearest neg k q6 = Ffin neg m e →
  ulp_shift (k * U) q6 ≤ 1054 → millionths m e = k.
Proof.
  intros Hk Hy Hs. pose proof (nearest_units neg k q6 m e Hk eq_refl Hy) as Hu.
  destruct (nearest_mantissa k q6 Hk eq_refl) as (Hs0 & _ & _).
  cbv zeta in Hu, Hs0. unfold millionths. rewrite Hu. clear Hu Hy.
  set (s := ulp_shift _ _) in *.
  assert (0 < q6 * 2 ^ s) as HQ by (pose proof (pow2_pos s Hs0); lia).
  destruct (rne_div_error (k * U) (q6 * 2 ^ s) HQ) as [E1 E2].
  set (m0 := rne_div _ _) in *.
  assert (2 ^ s ≤ 2 ^ 1054) as HA by (apply pow2_le; lia).
  pose proof U_split' as HU. pose proof (pow2_pos s Hs0).
  apply rne_div_unique; [apply U_pos|..].
  all: set (A := 2 ^ s) in *; set (A0 := 2 ^ 1054) in *; set (Uv := U) in *.
  all: clearbody A A0 Uv m0; nia.
Qed.

Lemma nearest_Ffin neg p q neg' m e :
  nearest neg p q = Ffin neg' m e →
  neg' = neg ∧ ulp_shift (p * U) q + emin ≤ e.
Proof.
  rewrite nearest_unfold. cbv zeta.
  destruct (_ =? 2 ^ prec); [destruct (_ <? _ + 1)|destruct (_ <? _)];
    intros [=]; subst; split; (done || lia).
Qed.

(** The binary64 nearest to a number of millionths is left unchanged by
    [round(x, 6)]. *)
Lemma round6_nearest neg k :
  0 ≤ k → round6 (nearest neg k q6) = nearest neg k q6.
Proof.
  intros Hk. pose proof (nearest_wf neg k q6 Hk eq_refl) as Hwf.
  destruct (nearest neg k q6) as [| |neg' m' e'] eqn:Hy; try done.
  destruct (nearest_Ffin _ _ _ _ _ _ Hy) as [-> He'].
  destruct (Z_le_gt_dec (ulp_shift (k * U) q6) 1054) as [Hs|Hs].
  - simpl. by rewrite (millionths_nearest neg k m' e').
  - apply round6_large; [done|]. unfold emin in *. lia.
Qed.

(** [round(x, 6)] is idempotent on binary64 values: rounding a rounded
    coordinate again returns it unchanged. *)
Lemma round6_round6 x : wf_float x = true → round6 (round6 x) = round6 x.
Proof.
  destruct x as [| |neg m e]; try done. intros (Hm & _)%canonical_spec.
  apply round6_nearest, millionths_nonneg. lia.
Qed.

(** C38. A number written with at most six decimals is left as it is: the
    float that [json.load] reads from the digits [digits] with [j <= 6] of
    them after the point is returned unchanged by [round(x, 6)].  A file
    that the clean-up has written is therefore not changed by rounding its
    coordinates again. *)
Theorem round6_decimal neg digits j :
  0 ≤ digits → 0 ≤ j ≤ 6 →
  round6 (float_of_decimal neg digits (- j)) = float_of_decimal neg digits (- j).
Proof.
  intros Hd Hj.
  assert (0 < 10 ^ (6 - j)) as Hc by (apply Z.pow_pos_nonneg; lia).
  assert (float_of_decimal neg digits (- j)
          = nearest neg (digits * 10 ^ (6 - j)) (10 ^ j * 10 ^ (6 - j))) as ->.
  { unfold float_of_decimal. symmetry. destruct (Z.leb_spec 0 (- j)).
    - assert (j = 0) as -> by lia.
      transitivity (nearest neg digits 1); [by apply nearest_scale|].
      f_equal. change (10 ^ (- 0)) with 1. lia.
    - rewrite Z.opp_involutive. apply nearest_scale; [done| |done].
      apply Z.pow_pos_nonneg; lia. }
  replace (10 ^ j * 10 ^ (6 - j)) with q6
    by (rewrite <-Z.pow_add_r by lia; f_equal; lia).
  apply round6_nearest. lia.
Qed.

Lemma round6_decimal_witness :
  round6 (float_of_decimal false 51500738 (- 6)) =
  float_of_decimal false 51500738 (- 6).
Proof. apply (round6_decimal false 51500738 6); lia. Defined.

#[export] Instance round6_rounding : Rounding round6.
Proof. split; [apply round6_wf | apply round6_round6]. Qed.

(** C3. The values that [round(x, 6)] returns are exactly the values that it
    leaves unchanged: a binary64 value is a fixed point of [round6] if and
    only if it is [round6] of some binary64 value.  So rounding a rounded
    coordinate again never moves it. *)
Theorem round6_fixed_points y :
  wf_float y = true →
  round6 y = y ↔ ∃ x, wf_float x = true ∧ round6 x = y.
Proof.
  intros Hy. split; [by eauto|]. intros (x & Hx & <-). by apply round6_round6.
Qed.

Lemma round6_fixed_points_witness :
  round6 (round6 x_lat) = round6 x_lat ↔
  ∃ x, wf_float x = true ∧ round6 x = round6 x_lat.
Proof. apply (round6_fixed_points (round6 x_lat)). reflexivity. Defined.

Lemma nearest_neg neg p q : float_neg (nearest neg p q) = neg.
Proof.
  rewrite nearest_unfold. cbv zeta.
  by destruct (_ =? 2 ^ prec); [destruct (_ <? _ + 1)|destruct (_ <? _)].
Qed.

(** C37. The sign survives, also when the value rounds to zero:
    [round(-1e-9, 6)] is [-0.0]. *)
Theorem round6_neg x : float_neg (round6 x) = float_neg x.
Proof. destruct x as [| |neg m e]; try done. apply nearest_neg. Qed.

Lemma round6_zero neg e : round6 (Ffin neg 0 e) = Ffin neg 0 emin.
Proof. by destruct neg. Qed.

Lemma U_split'' : 2 ^ 1076 = 2 ^ 22 * 2 ^ 1054.
Proof. reflexivity. Qed.

(** The exponent of the result of [round6] on a value below 2^33. *)
Lemma round6_shift_bound m e :
  canonical m e = true → e ≤ -20 →
  ulp_shift (millionths m e * U) q6 ≤ 1075.
Proof.
  intros (Hm & He & _)%canonical_spec Hlt.
  assert (0 ≤ millionths m e) as Hk by (apply millionths_nonneg; lia).
  destruct (millionths_error m e) as [E1 _]. cbv zeta in E1.
  set (k := millionths m e) in *. pose proof U_pos as HU.
  destruct (ulp_shift_ok (k * U) q6 ltac:(lia) eq_refl) as (Hs & _ & Hl).
  set (s := ulp_shift _ _) in *.
  destruct (Z_le_gt_dec s 1075) as [|Hgt]; [done|]. exfalso.
  specialize (Hl ltac:(lia)).
  assert (2 ^ 1076 ≤ 2 ^ s) as HA by (apply pow2_le; lia).
  assert (2 ^ (e - emin) ≤ 2 ^ 1054) as HB
    by (apply pow2_le; unfold emin in *; lia).
  assert (0 < 2 ^ (e - emin)) by (apply pow2_pos; lia).
  rewrite U_split'' in HA. pose proof U_split' as HU'.
  pose proof pow2_prec as Hpp. pose proof pow2_prec1_pos.
  unfold units in E1.
  set (A := 2 ^ s) in *. set (B := 2 ^ (e - emin)) in *.
  set (A0 := 2 ^ 1054) in *. set (Uv := U) in *. set (P := 2 ^ (prec - 1)) in *.
  clearbody A B A0 Uv P k. rewrite Hpp in *. nia.
Qed.

(** C11. [round(x, 6)] of a finite value is finite: the [OverflowError] of
    [float.__round__] cannot happen with 6 digits. *)
Theorem round6_finite neg m e :
  canonical m e = true → ∃ m' e', round6 (Ffin neg m e) = Ffin neg m' e'.
Proof.
  intros Hc. destruct (Z_le_gt_dec (-19) e) as [He|He].
  { exists m, e. by apply round6_large. }
  pose proof (round6_shift_bound m e Hc ltac:(lia)) as Hs.
  simpl. rewrite nearest_unfold. cbv zeta.
  destruct (_ =? 2 ^ prec).
  - destruct (Z.ltb_spec (emax - emin) (ulp_shift (millionths m e * U) q6 + 1));
      [unfold emin, emax in *; lia | eauto].
  - destruct (Z.ltb_spec (emax - emin) (ulp_shift (millionths m e * U) q6));
      [unfold emin, emax in *; lia | eauto].
Qed.

Lemma round6_finite_witness :
  ∃ m' e', round6 (Ffin false (2 ^ 53 - 1) (-20)) = Ffin false m' e'.
Proof. apply (round6_finite false (2 ^ 53 - 1) (-20)). reflexivity. Defined.

(** C10. Accuracy: the result is within half a millionth plus half a unit
    in its last place of the argument. *)
Theorem round6_accuracy neg m e m' e' :
  canonical m e = true → round6 (Ffin neg m e) = Ffin neg m' e' →
  let d := units m' e' * q6 - units m e * q6 in
  2 * d ≤ U + q6 * 2 ^ (e' - emin) ∧ - (U + q6 * 2 ^ (e' - emin)) ≤ 2 * d.
Proof.
  intros (Hm & He & _)%canonical_spec Hy. simpl in Hy.
  assert (0 ≤ millionths m e) as Hk by (apply millionths_nonneg; lia).
  destruct (millionths_error m e) as [E1 E2]. cbv zeta in E1, E2.
  set (k := millionths m e) in *.
  pose proof (nearest_units neg k q6 m' e' Hk eq_refl Hy) as Hu.
  destruct (nearest_Ffin _ _ _ _ _ _ Hy) as [_ He'].
  destruct (nearest_mantissa k q6 Hk eq_refl) as (Hs0 & _ & _).
  cbv zeta in Hu, Hs0. rewrite Hu. set (s := ulp_shift _ _) in *.
  assert (0 < q6 * 2 ^ s) as HQ by (pose proof (pow2_pos s Hs0); lia).
  destruct (rne_div_error (k * U) (q6 * 2 ^ s) HQ) as [E3 E4].
  assert (2 ^ s ≤ 2 ^ (e' - emin)) as HA by (apply pow2_le; lia).
  set (m0 := rne_div _ _) in *. set (A := 2 ^ s) in *.
  set (A' := 2 ^ (e' - emin)) in *. set (V := units m e) in *.
  set (Uv := U) in *. clearbody m0 A A' V Uv k. cbv zeta. lia.
Qed.

Lemma round6_accuracy_witness :
  let d := units 7248084514565798 (-47) * 10 ^ 6
           - units 7248084578066553 (-47) * 10 ^ 6 in
  2 * d ≤ 2 ^ (- emin) + 10 ^ 6 * 2 ^ (-47 - emin) ∧
  - (2 ^ (- emin) + 10 ^ 6 * 2 ^ (-47 - emin)) ≤ 2 * d.
Proof.
  apply (round6_accuracy false 7248084578066553 (-47) 7248084514565798 (-47));
    reflexivity.
Defined.
