(* ===== verification/PyValue.v ===== *)
(** * PyValue: the Python objects that [json.load] returns

    [json.load] maps a JSON document to [None], [bool], [int], [float],
    [str], [list] and [dict] objects; the script reads and updates them with
    subscripts ([gj["features"]], [feature["properties"] = props]),
    [dict.get], [del], [for ... in], the truth test [if name:] and
    [isinstance].  This file defines the values ([pyval]), the exceptions the
    script can raise ([exn]), and each of these operations with the exception
    Python raises when the operand has the wrong type.

    A [dict] keeps its keys in insertion order; it is an association list
    whose keys are distinct ([wf_pyval]).  Assigning to a key that is present
    keeps its position, assigning to a new key appends it. *)

From Stdlib Require Import ZArith.
From stdpp Require Import base option list strings.
From S2P Require Import Prelude PyFloat.

(** ** Values *)

#[local] Unset Elimination Schemes.
Inductive pyval : Type :=
  | PyNone
  | PyBool (b : bool)
  | PyInt (n : Z)
  | PyFloat (x : float)
  | PyStr (s : string)
  | PyList (l : list pyval)
  | PyDict (d : list (string * pyval)).
#[local] Set Elimination Schemes.

(** ** Exceptions *)

Inductive exn : Type :=
  | KeyError (key : string)
  | TypeError (obj : pyval)
  | AttributeError (obj : pyval) (attr : string)
  | Exception (data : pyval)
  | FileNotFoundError (path : string)
  | IsADirectoryError (path : string)
  | NotADirectoryError (path : string)
  | JSONDecodeError (path : string)
  | OSError (cmd : list string)
  | CalledProcessError (returncode : Z) (cmd : list string).

(** ** Dictionaries: insertion-ordered association lists *)

Section dict.
Context {V : Type}.
Implicit Types (k : string) (x : V) (d : list (string * V)).

Fixpoint dict_lookup k d : option V :=
  match d with
  | [] => None
  | (k', y) :: d' => if decide (k = k') then Some y else dict_lookup k d'
  end.

(** [d[k] = x]: the key keeps its position when it is present. *)
Fixpoint dict_set k x d : list (string * V) :=
  match d with
  | [] => [(k, x)]
  | (k', y) :: d' =>
      if decide (k = k') then (k, x) :: d' else (k', y) :: dict_set k x d'
  end.

(** [del d[k]] on a key that is present. *)
Fixpoint dict_del k d : list (string * V) :=
  match d with
  | [] => []
  | (k', y) :: d' =>
      if decide (k = k') then d' else (k', y) :: dict_del k d'
  end.

Definition dict_keys d : list string := d.*1.
End dict.

(** ** Operations of the script on values *)

(** [bool(v)], the test of [if name:]. *)
Definition truthy (v : pyval) : bool :=
  match v with
  | PyNone => false
  | PyBool b => b
  | PyInt n => negb (n =? 0)%Z
  | PyFloat x => negb (float_is_zero x)
  | PyStr s => negb (bool_decide (s = ""))
  | PyList l => negb (bool_decide (l = []))
  | PyDict d => negb (bool_decide (d = []))
  end.

(** [v[k]] with a string key: only a dict accepts it. *)
Definition getitem (v : pyval) (k : string) : result exn pyval :=
  match v with
  | PyDict d =>
      match dict_lookup k d with Some x => Ok x | None => Raise (KeyError k) end
  | _ => Raise (TypeError v)
  end.

(** [v.get(k)]: [None] when the key is absent; only a dict has the method. *)
Definition py_get (v : pyval) (k : string) : result exn pyval :=
  match v with
  | PyDict d => Ok (default PyNone (dict_lookup k d))
  | _ => Raise (AttributeError v "get")
  end.

(** [v[k] = x] with a string key. *)
Definition setitem (v : pyval) (k : string) (x : pyval) : result exn pyval :=
  match v with
  | PyDict d => Ok (PyDict (dict_set k x d))
  | _ => Raise (TypeError v)
  end.

(** [del v[k]] with a string key. *)
Definition delitem (v : pyval) (k : string) : result exn pyval :=
  match v with
  | PyDict d =>
      match dict_lookup k d with
      | Some _ => Ok (PyDict (dict_del k d))
      | None => Raise (KeyError k)
      end
  | _ => Raise (TypeError v)
  end.

Fixpoint string_chars (s : string) : list string :=
  match s with
  | EmptyString => []
  | String a s' => String a EmptyString :: string_chars s'
  end.

(** The elements that [for x in v] visits: the items of a list, the keys of
    a dict, the characters of a string; other objects are not iterable. *)
Definition py_iter (v : pyval) : result exn (list pyval) :=
  match v with
  | PyList l => Ok l
  | PyDict d => Ok (PyStr <$> dict_keys d)
  | PyStr s => Ok (PyStr <$> string_chars s)
  | _ => Raise (TypeError v)
  end.

(** [for x in v: body(x)] where the body updates [x] in place: the items of
    a list are replaced by the updated objects; keys and characters are
    immutable strings, the loop leaves their container as it is. *)
Definition for_each (body : pyval → result exn pyval) (v : pyval)
    : result exn pyval :=
  match v with
  | PyList l => PyList <$> mapM body l
  | _ => xs ← py_iter v; mapM body xs;; Ok v
  end.

(** ** Well-formed values: canonical floats, distinct keys *)

Fixpoint wf_pyval (v : pyval) : bool :=
  match v with
  | PyFloat x => wf_float x
  | PyList l => forallb wf_pyval l
  | PyDict d =>
      bool_decide (NoDup (dict_keys d)) && forallb (λ kv, wf_pyval kv.2) d
  | _ => true
  end.

(** ** Induction on values *)

Section pyval_ind.
Context (P : pyval → Prop).
Context (HNone : P PyNone) (HBool : ∀ b, P (PyBool b)) (HInt : ∀ n, P (PyInt n))
  (HFloat : ∀ x, P (PyFloat x)) (HStr : ∀ s, P (PyStr s))
  (HList : ∀ l, Forall P l → P (PyList l))
  (HDict : ∀ d, Forall (λ kv, P kv.2) d → P (PyDict d)).

Fixpoint pyval_ind (v : pyval) : P v :=
  match v with
  | PyNone => HNone
  | PyBool b => HBool b
  | PyInt n => HInt n
  | PyFloat x => HFloat x
  | PyStr s => HStr s
  | PyList l =>
      HList l ((fix go (l : list pyval) : Forall P l :=
                  match l with
                  | [] => Forall_nil_2 P
                  | x :: l' => Forall_cons_2 P x l' (pyval_ind x) (go l')
                  end) l)
  | PyDict d =>
      HDict d ((fix go (d : list (string * pyval))
                  : Forall (λ kv, P kv.2) d :=
                  match d with
                  | [] => Forall_nil_2 _
                  | kv :: d' =>
                      Forall_cons_2 (λ kv, P kv.2) kv d' (pyval_ind kv.2) (go d')
                  end) d)
  end.
End pyval_ind.

#[export] Instance pyval_eq_dec : EqDecision pyval.
Proof.
  refine (fix go (v w : pyval) : Decision (v = w) :=
    match v, w with
    | PyNone, PyNone => left _
    | PyBool a, PyBool b => cast_if (decide (a = b))
    | PyInt a, PyInt b => cast_if (decide (a = b))
    | PyFloat a, PyFloat b => cast_if (decide (a = b))
    | PyStr a, PyStr b => cast_if (decide (a = b))
    | PyList a, PyList b => cast_if (@list_eq_dec _ go a b)
    | PyDict a, PyDict b =>
        cast_if (@list_eq_dec _ (@prod_eq_dec _ _ _ go) a b)
    | _, _ => right _
    end); abstract congruence.
Defined.

#[export] Instance exn_eq_dec : EqDecision exn.
Proof. solve_decision. Defined.

(** * Theorems *)

(** ** Dictionaries *)

Section dict_lemmas.
Context {V : Type}.
Implicit Types (k : string) (x : V) (d : list (string * V)).

Lemma dict_lookup_Some_elem k x d : dict_lookup k d = Some x → (k, x) ∈ d.
Proof.
  induction d as [|[k' y] d IH]; simpl; [done|].
  case_decide; [intros [= ->]; subst; left | right; auto].
Qed.

Lemma dict_lookup_None k d : dict_lookup k d = None ↔ k ∉ dict_keys d.
Proof.
  induction d as [|[k' y] d IH]; simpl.
  - split; [intros _; apply not_elem_of_nil | done].
  - rewrite not_elem_of_cons. case_decide; [naive_solver | tauto].
Qed.

Lemma dict_lookup_is_Some k d : is_Some (dict_lookup k d) ↔ k ∈ dict_keys d.
Proof.
  rewrite <-not_eq_None_Some, dict_lookup_None.
  destruct (decide (k ∈ dict_keys d)); tauto.
Qed.

Lemma dict_lookup_set_eq k x d : dict_lookup k (dict_set k x d) = Some x.
Proof.
  induction d as [|[k' y] d IH]; simpl; repeat (case_decide; simpl); done.
Qed.

Lemma dict_lookup_set_ne k k' x d :
  k ≠ k' → dict_lookup k' (dict_set k x d) = dict_lookup k' d.
Proof.
  intros Hne. induction d as [|[k1 y] d IH]; simpl;
    repeat (case_decide; simpl); congruence.
Qed.

(** Assignment keeps the order of the keys: a present key stays where it
    is, a new key goes to the end. *)
Lemma dict_keys_set k x d :
  dict_keys (dict_set k x d) =
  if decide (k ∈ dict_keys d) then dict_keys d else dict_keys d ++ [k].
Proof.
  unfold dict_keys. induction d as [|[k' y] d IH].
  - destruct (decide (k ∈ [].*1)) as [Hin|]; [by inv Hin | done].
  - cbn [dict_set]. destruct (decide (k = k')) as [->|Hk].
    + rewrite decide_True; [done | by left].
    + cbn [fmap list_fmap fst]. rewrite IH. clear IH.
      destruct (decide (k ∈ d.*1)) as [Hin|Hin].
      * rewrite decide_True; [done | by right].
      * rewrite decide_False; [done|]. cbn [fmap list_fmap fst].
        rewrite elem_of_cons. tauto.
Qed.

Lemma dict_set_NoDup k x d :
  NoDup (dict_keys d) → NoDup (dict_keys (dict_set k x d)).
Proof.
  intros Hnd. rewrite dict_keys_set. case_decide; [done|].
  apply NoDup_app. split_and!; [done | | apply NoDup_singleton].
  intros k' Hk' ->%list_elem_of_singleton. done.
Qed.

Lemma dict_keys_del k d :
  dict_keys (dict_del k d) ⊆ dict_keys d.
Proof.
  induction d as [|[k' y] d IH]; simpl; [done|].
  case_decide; simpl.
  - by apply list_subseteq_cons.
  - intros k1. rewrite !elem_of_cons. unfold dict_keys in *. naive_solver.
Qed.

Lemma dict_lookup_del_ne k k' d :
  k ≠ k' → dict_lookup k' (dict_del k d) = dict_lookup k' d.
Proof.
  intros Hne. induction d as [|[k1 y] d IH]; simpl; [done|].
  repeat (case_decide; simpl); congruence.
Qed.

Lemma dict_lookup_del_eq k d :
  NoDup (dict_keys d) → dict_lookup k (dict_del k d) = None.
Proof.
  induction d as [|[k' y] d IH]; simpl; [done|].
  intros [Hk' Hnd]%NoDup_cons. case_decide; simpl.
  - subst. by apply dict_lookup_None.
  - rewrite decide_False by done. auto.
Qed.

Lemma dict_del_NoDup k d :
  NoDup (dict_keys d) → NoDup (dict_keys (dict_del k d)).
Proof.
  induction d as [|[k' y] d IH]; simpl; [done|].
  intros [Hk' Hnd]%NoDup_cons. case_decide; simpl; [done|].
  apply NoDup_cons. split; [|auto].
  intros Hin. by apply Hk', (dict_keys_del k d).
Qed.

(** Assigning to a key the value it has changes nothing. *)
Lemma dict_set_same k x d : dict_lookup k d = Some x → dict_set k x d = d.
Proof.
  induction d as [|[k' y] d IH]; simpl; [done|].
  case_decide; [by intros [= ->]; subst | intros ?; f_equal; auto].
Qed.
End dict_lemmas.

(** The members of a well-formed dict are well formed. *)
Lemma wf_pyval_lookup d k v :
  wf_pyval (PyDict d) = true → dict_lookup k d = Some v → wf_pyval v = true.
Proof.
  intros [_ Hd]%andb_prop Hk%dict_lookup_Some_elem.
  apply Is_true_true_2, forallb_True in Hd. rewrite Forall_forall in Hd.
  apply Is_true_true_1, (Hd (k, v) Hk).
Qed.

(** ** Subscripts *)

Lemma getitem_Ok v k x :
  getitem v k = Ok x ↔ ∃ d, v = PyDict d ∧ dict_lookup k d = Some x.
Proof.
  split.
  - destruct v; simpl; try done. destruct (dict_lookup k d) eqn:?; [|done].
    intros [= ->]. eauto.
  - intros (d & -> & Hk). simpl. by rewrite Hk.
Qed.

