(* ===== verification/TrimPrecision.v ===== *)
(** * TrimPrecision: the coordinate normaliser

    [trim_precision] (src/layers/generate_layers.py, lines 211-217) walks
    [feature.geometry.coordinates]: a list is rebuilt from the results on its
    items, a float is rounded to 6 decimals, anything else raises.  The
    function does not know the geometry type; it dispatches on the type of
    the object at hand.

    The specification is stated with four functions on values:
    [is_coordinates] (nested lists of floats), [first_bad] (the first leaf,
    in depth-first order, that is neither), [map_floats] (the same tree with
    a function applied to every float) and [shape_of] (the tree without its
    leaves' contents). *)

From Stdlib Require Import ZArith.
From stdpp Require Import base option list strings.
From S2P Require Import Prelude PyFloat PyValue.

(** ** The function *)

Fixpoint trim_precision (data : pyval) : result exn pyval :=
  match data with
  | PyList l => PyList <$> mapM trim_precision l
  | PyFloat x => Ok (PyFloat (round6 x))
  | _ => Raise (Exception data)
  end.

(** ** Its specification *)

Fixpoint is_coordinates (v : pyval) : bool :=
  match v with
  | PyList l => forallb is_coordinates l
  | PyFloat _ => true
  | _ => false
  end.

Fixpoint first_bad (v : pyval) : option pyval :=
  match v with
  | PyList l => head (omap first_bad l)
  | PyFloat _ => None
  | _ => Some v
  end.

Fixpoint map_floats (f : float → float) (v : pyval) : pyval :=
  match v with
  | PyList l => PyList (map_floats f <$> l)
  | PyFloat x => PyFloat (f x)
  | _ => v
  end.

Inductive shape : Type :=
  | Leaf
  | Node (children : list shape).

Fixpoint shape_of (v : pyval) : shape :=
  match v with
  | PyList l => Node (shape_of <$> l)
  | _ => Leaf
  end.

(** The floats of a value, left to right. *)
Fixpoint floats (v : pyval) : list float :=
  match v with
  | PyList l => l ≫= floats
  | PyFloat x => [x]
  | _ => []
  end.

(** Nesting depth: 1 for a position, 2 for a line, 3 for a polygon, 4 for a
    multi-polygon. *)
Fixpoint depth (v : pyval) : nat :=
  match v with
  | PyList l => S (max_list (depth <$> l))
  | _ => 0
  end.

(** ** Examples: a position, a polygon, a malformed leaf *)

Definition f_lon : float := float_of_decimal true 1246001 (-7).
Definition f_lat : float := float_of_decimal false 515007384512 (-10).
Definition position : pyval := PyList [PyFloat f_lon; PyFloat f_lat].
Definition polygon : pyval := PyList [PyList [position; position; position]].

Example trim_precision_position :
  trim_precision position =
  Ok (PyList [PyFloat (float_of_decimal true 1246 (-4));
              PyFloat (float_of_decimal false 51500738 (-6))]).
Proof. vm_compute. reflexivity. Qed.

Example trim_precision_abc :
  trim_precision (PyList [PyList [position; PyList [PyFloat f_lon; PyStr "abc"]]])
  = Raise (Exception (PyStr "abc")).
Proof. vm_compute. reflexivity. Qed.

(** * Theorems *)

Section trim_precision.
Implicit Types (v data : pyval) (l : list pyval).

Lemma first_bad_list_cons v l :
  first_bad (PyList (v :: l)) =
  match first_bad v with Some b => Some b | None => first_bad (PyList l) end.
Proof. simpl. by destruct (first_bad v). Qed.

Lemma trim_precision_list l :
  trim_precision (PyList l) = PyList <$> mapM trim_precision l.
Proof. done. Qed.

(** The loop of the list case, from the specification of its items. *)
Lemma mapM_trim_precision_spec l :
  Forall (λ v, trim_precision v =
               match first_bad v with
               | Some b => Raise (Exception b)
               | None => Ok (map_floats round6 v)
               end) l →
  mapM trim_precision l =
  match first_bad (PyList l) with
  | Some b => Raise (Exception b)
  | None => Ok (map_floats round6 <$> l)
  end.
Proof.
  induction 1 as [|v l Hv _ IH]; [done|].
  rewrite mapM_cons, first_bad_list_cons, Hv, IH.
  destruct (first_bad v); [done|]. simpl.
  by destruct (head (omap first_bad l)).
Qed.

(** [trim_precision] as an equation: the form the other proofs rewrite
    with. *)
Lemma trim_precision_first_bad data :
  trim_precision data =
  match first_bad data with
  | Some b => Raise (Exception b)
  | None => Ok (map_floats round6 data)
  end.
Proof.
  induction data as [| | | | |l IH|d _] using pyval_ind; try done.
  rewrite trim_precision_list, (mapM_trim_precision_spec l IH).
  by destruct (first_bad (PyList l)).
Qed.

Lemma first_bad_None v : first_bad v = None ↔ is_coordinates v = true.
Proof.
  induction v as [| | | | |l IH|d _] using pyval_ind; try done.
  induction IH as [|v l Hv _ IH]; [done|].
  rewrite first_bad_list_cons. cbn [is_coordinates forallb] in *.
  rewrite andb_true_iff, <-Hv, <-IH. destruct (first_bad v); naive_solver.
Qed.

(** C1. [trim_precision] is fully determined by [is_coordinates],
    [first_bad] and [map_floats]: on nested lists of floats it returns the
    same nested lists with every float rounded by [round6]; on anything else
    it raises [Exception] with the first leaf, in depth-first order, that is
    neither a list nor a float. *)
Theorem trim_precision_spec data :
  if is_coordinates data
  then trim_precision data = Ok (map_floats round6 data)
  else ∃ b, first_bad data = Some b ∧
            trim_precision data = Raise (Exception b).
Proof.
  rewrite trim_precision_first_bad.
  destruct (first_bad data) as [b|] eqn:Hb.
  - destruct (is_coordinates data) eqn:Hc; [|by eauto].
    apply first_bad_None in Hc. congruence.
  - by rewrite (proj1 (first_bad_None data) Hb).
Qed.

(** C34. [trim_precision] returns exactly on nested lists of floats: an
    [int], a [str], a [bool], [None] or a [dict] anywhere in the structure
    makes it raise. *)
Theorem trim_precision_is_Ok data :
  is_Ok (trim_precision data) = is_coordinates data.
Proof.
  rewrite trim_precision_first_bad. destruct (first_bad data) as [b|] eqn:Hb.
  - simpl. symmetry. apply not_true_is_false. rewrite <-first_bad_None.
    congruence.
  - simpl. symmetry. by apply first_bad_None.
Qed.

Lemma trim_precision_Ok data v :
  trim_precision data = Ok v ↔
  is_coordinates data = true ∧ v = map_floats round6 data.
Proof.
  rewrite trim_precision_first_bad, <-first_bad_None.
  destruct (first_bad data); naive_solver.
Qed.

Lemma shape_of_map_floats f v : shape_of (map_floats f v) = shape_of v.
Proof.
  induction v as [| | | | |l IH|d _] using pyval_ind; try done.
  simpl. f_equal. rewrite <-list_fmap_compose.
  by apply Forall_fmap_ext_1.
Qed.

(** C12. Shape preservation: the result has the nesting and the element
    counts of the input at every level. *)
Theorem trim_precision_shape data v :
  trim_precision data = Ok v → shape_of v = shape_of data.
Proof. intros [_ ->]%trim_precision_Ok. apply shape_of_map_floats. Qed.

Lemma trim_precision_shape_witness :
  shape_of (map_floats round6 polygon) = shape_of polygon.
Proof.
  apply (trim_precision_shape polygon (map_floats round6 polygon)).
  vm_compute. reflexivity.
Defined.

Lemma floats_map_floats f v :
  is_coordinates v = true → floats (map_floats f v) = f <$> floats v.
Proof.
  induction v as [| | | | |l IH|d _] using pyval_ind; try done.
  cbn [is_coordinates map_floats floats]. intros Hl.
  induction IH as [|v l Hv _ IH]; [done|].
  cbn [forallb] in Hl. apply andb_prop in Hl as [Hv' Hl'].
  rewrite fmap_cons, !bind_cons, fmap_app, Hv, IH; done.
Qed.

Lemma is_coordinates_map_floats f v :
  is_coordinates (map_floats f v) = is_coordinates v.
Proof.
  induction v as [| | | | |l IH|d _] using pyval_ind; try done.
  cbn [map_floats is_coordinates].
  induction IH as [|v l Hv _ IH]; [done|].
  rewrite fmap_cons. cbn [forallb]. by rewrite Hv, IH.
Qed.

(** C13. Every coordinate of the result is [round6] of the coordinate at the
    same place of the input, and nothing else is in the result. *)
Theorem trim_precision_floats data v :
  trim_precision data = Ok v →
  floats v = round6 <$> floats data ∧ is_coordinates v = true.
Proof.
  intros [Hc ->]%trim_precision_Ok. split; [by apply floats_map_floats|].
  by rewrite is_coordinates_map_floats.
Qed.

Lemma trim_precision_floats_witness :
  floats (map_floats round6 polygon) = round6 <$> floats polygon ∧
  is_coordinates (map_floats round6 polygon) = true.
Proof.
  apply (trim_precision_floats polygon (map_floats round6 polygon)).
  vm_compute. reflexivity.
Defined.

Lemma depth_map_floats f v : depth (map_floats f v) = depth v.
Proof.
  induction v as [| | | | |l IH|d _] using pyval_ind; try done.
  simpl. f_equal. f_equal. rewrite <-list_fmap_compose.
  by apply Forall_fmap_ext_1.
Qed.

Lemma trim_precision_depth data v :
  trim_precision data = Ok v → depth v = depth data.
Proof. intros [_ ->]%trim_precision_Ok. apply depth_map_floats. Qed.

(** ** Idempotence and well-formedness, from the laws of [round6] *)

(** The items of a well-formed list, for an induction hypothesis of
    [pyval_ind] that needs well-formed arguments. *)
Lemma Forall_wf_items (P : pyval → Prop) l :
  Forall (λ v, wf_pyval v = true → P v) l → forallb wf_pyval l = true →
  Forall P l.
Proof.
  induction 1 as [|v l Hv _ IH]; [done|]. cbn [forallb].
  intros [??]%andb_prop. constructor; auto.
Qed.

Lemma map_floats_compose_wf (f g h : float → float) v :
  (∀ x, wf_float x = true → f (g x) = h x) → wf_pyval v = true →
  map_floats f (map_floats g v) = map_floats h v.
Proof.
  intros Hfg. induction v as [| | |x| |l IH|d _] using pyval_ind; try done.
  - simpl. intros Hx. by rewrite Hfg.
  - cbn [wf_pyval map_floats]. intros Hl. f_equal.
    rewrite <-list_fmap_compose.
    by apply Forall_fmap_ext_1, Forall_wf_items.
Qed.

Lemma wf_map_floats (f : float → float) v :
  (∀ x, wf_float x = true → wf_float (f x) = true) → wf_pyval v = true →
  wf_pyval (map_floats f v) = true.
Proof.
  intros Hf. induction v as [| | |x| |l IH|d _] using pyval_ind; try done.
  - simpl. apply Hf.
  - cbn [wf_pyval map_floats]. intros Hl.
    pose proof (Forall_wf_items _ l IH Hl) as Hall. clear IH Hl.
    induction Hall as [|v l Hv _ IH]; [done|].
    rewrite fmap_cons. cbn [forallb]. by rewrite Hv, IH.
Qed.

(** The two laws of a rounding function, lifted to nested coordinates. *)
Section rounding.
Context (r : float → float) `{!Rounding r}.

Lemma map_floats_idem v :
  wf_pyval v = true → map_floats r (map_floats r v) = map_floats r v.
Proof. apply map_floats_compose_wf, rounding_idem. Qed.

Lemma map_floats_wf v :
  wf_pyval v = true → wf_pyval (map_floats r v) = true.
Proof. apply wf_map_floats, rounding_wf. Qed.
End rounding.

(** C6. Coordinate rounding is idempotent: normalising an already
    normalised structure returns it unchanged. *)
Theorem trim_precision_idem data v :
  wf_pyval data = true → trim_precision data = Ok v → trim_precision v = Ok v.
Proof.
  intros Hwf [Hc ->]%trim_precision_Ok. apply trim_precision_Ok.
  rewrite is_coordinates_map_floats. split; [done|]. symmetry.
  by apply map_floats_idem; [apply _|].
Qed.

Lemma trim_precision_idem_witness :
  trim_precision (map_floats round6 polygon) = Ok (map_floats round6 polygon).
Proof.
  apply (trim_precision_idem polygon (map_floats round6 polygon));
    vm_compute; reflexivity.
Defined.

(** C14. The result of [trim_precision] on binary64 coordinates consists of
    binary64 coordinates. *)
Theorem trim_precision_wf data v :
  wf_pyval data = true → trim_precision data = Ok v → wf_pyval v = true.
Proof.
  intros Hwf [_ ->]%trim_precision_Ok. by apply map_floats_wf; [apply _|].
Qed.

Lemma trim_precision_wf_witness : wf_pyval (map_floats round6 polygon) = true.
Proof.
  apply (trim_precision_wf polygon (map_floats round6 polygon));
    vm_compute; reflexivity.
Defined.
End trim_precision.
