(* ===== verification/Reducer.v ===== *)
(** * Reducer: the feature reducer

    Two blocks of src/layers/generate_layers.py reduce the properties of
    every feature of a GeoJSON collection [gj] that [json.load] returned:

    - the loop of [remove_extra_properties] (lines 197-203), for schools and
      hospitals, keeps the property [name];
    - the clean-up block of [makeMRN] (lines 118-130) deletes the collection
      members [name] and [crs], keeps the property [name1] under the key
      [name], and rounds the coordinates with [trim_precision].

    The Python code updates the objects in place.  [json.load] returns a tree
    without sharing, so an update of [feature] is visible only through
    [gj["features"]]: the model returns the updated object and stores it
    where the original was ([setitem] on a key that is present keeps the
    position of the key).

    The specification's property policy is [policy] and [reduce_properties];
    the refinement theorems state that each loop body implements it. *)

From Stdlib Require Import ZArith.
From stdpp Require Import base option list sets strings.
From S2P Require Import Prelude PyFloat PyValue TrimPrecision.

(** ** The code *)

(** Lines 198-203: the body of the loop of [remove_extra_properties]. *)
Definition remove_extra_properties_feature (feature : pyval)
    : result exn pyval :=
  let props := [] in
  properties ← getitem feature "properties";
  name ← py_get properties "name";
  let props := if truthy name then dict_set "name" name props else props in
  setitem feature "properties" (PyDict props).

(** Lines 197-203: [for feature in gj["features"]: ...]. *)
Definition remove_extra_properties_gj (gj : pyval) : result exn pyval :=
  features ← getitem gj "features";
  features ← for_each remove_extra_properties_feature features;
  setitem gj "features" features.

(** Lines 121-130: the body of the loop of [makeMRN].  The right-hand side
    of the last assignment is evaluated before its target. *)
Definition makeMRN_feature (feature : pyval) : result exn pyval :=
  let props := [] in
  properties ← getitem feature "properties";
  name ← py_get properties "name1";
  let props := if truthy name then dict_set "name" name props else props in
  feature ← setitem feature "properties" (PyDict props);
  geometry ← getitem feature "geometry";
  coordinates ← getitem geometry "coordinates";
  trimmed ← trim_precision coordinates;
  geometry ← getitem feature "geometry";
  geometry ← setitem geometry "coordinates" trimmed;
  setitem feature "geometry" geometry.

(** Lines 118-130: the clean-up of the collection. *)
Definition makeMRN_cleanup (gj : pyval) : result exn pyval :=
  gj ← delitem gj "name";
  gj ← delitem gj "crs";
  features ← getitem gj "features";
  features ← for_each makeMRN_feature features;
  setitem gj "features" features.

(** ** The specification: property policies *)

(** "Keep source property [src_key], expose it as [out_key], drop all other
    properties; if it is absent or empty, emit an empty mapping." *)
Record policy : Type := Policy { src_key : string; out_key : string }.

Definition schools_policy : policy := Policy "name" "name".
Definition hospitals_policy : policy := Policy "name" "name".
Definition mrn_policy : policy := Policy "name1" "name".

Definition reduce_properties (p : policy) (properties : list (string * pyval))
    : list (string * pyval) :=
  match dict_lookup (src_key p) properties with
  | Some v => if truthy v then [(out_key p, v)] else []
  | None => []
  end.

(** A feature of the shape the converters produce: a dict whose member
    [properties] is a dict. *)
Definition feature_properties (feature : pyval)
    : option (list (string * pyval)) :=
  match feature with
  | PyDict f =>
      match dict_lookup "properties" f with
      | Some (PyDict props) => Some props
      | _ => None
      end
  | _ => None
  end.

Definition reduce_feature (p : policy) (feature : pyval) : pyval :=
  match feature with
  | PyDict f =>
      match dict_lookup "properties" f with
      | Some (PyDict props) =>
          PyDict (dict_set "properties" (PyDict (reduce_properties p props)) f)
      | _ => feature
      end
  | _ => feature
  end.

(** The reduction of a collection: every feature reduced, in place and in
    order; the other members of the collection untouched. *)
Definition reduce_collection (p : policy) (gj : pyval) : pyval :=
  match gj with
  | PyDict g =>
      match dict_lookup "features" g with
      | Some (PyList fs) =>
          PyDict (dict_set "features" (PyList (reduce_feature p <$> fs)) g)
      | _ => gj
      end
  | _ => gj
  end.

(** The road-network feature after the clean-up: properties reduced,
    coordinates rounded, every member in place. *)
Definition normalize_feature (f props g : list (string * pyval)) (c : pyval)
    : pyval :=
  PyDict (dict_set "geometry"
            (PyDict (dict_set "coordinates" (map_floats round6 c) g))
            (dict_set "properties"
               (PyDict (reduce_properties mrn_policy props)) f)).

(** A feature of the road network as the converter produces it: the
    properties and the geometry are dicts, the coordinates are nested lists
    of floats. *)
Definition road_ok (feature : pyval) : bool :=
  match feature with
  | PyDict f =>
      match dict_lookup "properties" f, dict_lookup "geometry" f with
      | Some (PyDict _), Some (PyDict g) =>
          match dict_lookup "coordinates" g with
          | Some c => is_coordinates c
          | None => false
          end
      | _, _ => false
      end
  | _ => false
  end.

Definition normalize (feature : pyval) : pyval :=
  match feature with
  | PyDict f =>
      match dict_lookup "properties" f, dict_lookup "geometry" f with
      | Some (PyDict props), Some (PyDict g) =>
          match dict_lookup "coordinates" g with
          | Some c => normalize_feature f props g c
          | None => feature
          end
      | _, _ => feature
      end
  | _ => feature
  end.

(** The road-network collection after the clean-up: the members [name] and
    [crs] deleted, every feature normalised, in place and in order. *)
Definition clean_collection (g : list (string * pyval)) (fs : list pyval)
    : pyval :=
  PyDict (dict_set "features" (PyList (normalize <$> fs))
            (dict_del "crs" (dict_del "name" g))).

(** ** Examples: the scenarios of the specification *)

Definition example_school : pyval :=
  PyDict [("type", PyStr "Feature");
          ("geometry", PyDict [("type", PyStr "Polygon");
                               ("coordinates", polygon)]);
          ("properties", PyDict [("name", PyStr "Example School");
                                 ("amenity", PyStr "school")])].

Example remove_extra_properties_feature_school :
  remove_extra_properties_feature example_school =
  Ok (PyDict [("type", PyStr "Feature");
              ("geometry", PyDict [("type", PyStr "Polygon");
                                   ("coordinates", polygon)]);
              ("properties", PyDict [("name", PyStr "Example School")])]).
Proof. vm_compute. reflexivity. Qed.

Definition example_road (props : list (string * pyval)) : pyval :=
  PyDict [("type", PyStr "Feature");
          ("properties", PyDict props);
          ("geometry", PyDict [("type", PyStr "LineString");
                               ("coordinates", PyList [position; position])])].

Definition example_mrn (props : list (string * pyval)) : pyval :=
  PyDict [("type", PyStr "FeatureCollection");
          ("name", PyStr "Major_Road_Network_2018_Open_Roads");
          ("crs", PyDict [("type", PyStr "name")]);
          ("features", PyList [example_road props])].

Example makeMRN_cleanup_A414 :
  makeMRN_cleanup (example_mrn [("name1", PyStr "A414"); ("roadNumber", PyInt 414)]) =
  Ok (PyDict [("type", PyStr "FeatureCollection");
              ("features", PyList [
                 PyDict [("type", PyStr "Feature");
                         ("properties", PyDict [("name", PyStr "A414")]);
                         ("geometry", PyDict [("type", PyStr "LineString");
                            ("coordinates",
                             map_floats round6 (PyList [position; position]))])]])]).
Proof. vm_compute. reflexivity. Qed.

Example makeMRN_cleanup_no_name1 :
  (makeMRN_cleanup (example_mrn [("roadNumber", PyInt 414)])
     ≫= λ gj, getitem gj "features"
     ≫= λ fs, mapM (λ f, getitem f "properties") (default [] (result_to_option (py_iter fs))))
  = Ok [PyDict []].
Proof. vm_compute. reflexivity. Qed.

(** * Theorems *)

Section reducer.
Implicit Types (feature gj v : pyval) (f props : list (string * pyval))
  (p : policy).

(** ** The loop bodies implement the policy *)

Lemma feature_properties_Some feature props :
  feature_properties feature = Some props ↔
  ∃ f, feature = PyDict f ∧ dict_lookup "properties" f = Some (PyDict props).
Proof.
  split.
  - destruct feature as [| | | | | |f]; simpl; try done.
    destruct (dict_lookup "properties" f) as [[]|] eqn:?; try done.
    intros [= ->]. eauto.
  - intros (f & -> & Hf). simpl. by rewrite Hf.
Qed.

Lemma reduce_properties_dict_set p props :
  (if truthy (default PyNone (dict_lookup (src_key p) props))
   then dict_set (out_key p) (default PyNone (dict_lookup (src_key p) props)) []
   else []) = reduce_properties p props.
Proof.
  unfold reduce_properties. by destruct (dict_lookup (src_key p) props).
Qed.

(** Refinement, schools and hospitals: on a feature whose [properties]
    member is a dict, the body of the loop of [remove_extra_properties]
    returns the feature with its properties replaced by the policy's
    reduction, every other member (the geometry included) untouched and in
    place. *)
Theorem remove_extra_properties_feature_refines feature props :
  feature_properties feature = Some props →
  remove_extra_properties_feature feature =
  Ok (reduce_feature schools_policy feature).
Proof.
  intros (f & -> & Hf)%feature_properties_Some.
  unfold remove_extra_properties_feature. simpl. rewrite Hf. simpl.
  by rewrite (reduce_properties_dict_set schools_policy).
Qed.

Lemma remove_extra_properties_feature_refines_witness :
  remove_extra_properties_feature example_school =
  Ok (reduce_feature schools_policy example_school).
Proof.
  apply (remove_extra_properties_feature_refines example_school
           [("name", PyStr "Example School"); ("amenity", PyStr "school")]).
  reflexivity.
Defined.

(** The body raises on every other feature: [KeyError] without a
    [properties] member, [AttributeError] when it is not a dict (JSON
    [null] included), [TypeError] when the feature is not a dict. *)
Lemma remove_extra_properties_feature_Raise feature :
  feature_properties feature = None →
  remove_extra_properties_feature feature =
  match feature with
  | PyDict f =>
      match dict_lookup "properties" f with
      | Some v => Raise (AttributeError v "get")
      | None => Raise (KeyError "properties")
      end
  | _ => Raise (TypeError feature)
  end.
Proof.
  destruct feature as [| | | | | |f]; try done.
  unfold remove_extra_properties_feature. simpl.
  by destruct (dict_lookup "properties" f) as [[]|].
Qed.

(** ** The keys of the reduced properties *)

(** The reduced mapping has at most the policy's output key, and has it
    exactly when the source key is present with a true value; the value is
    the source value. *)
Lemma reduce_properties_keys p props :
  dict_keys (reduce_properties p props) ⊆ [out_key p] ∧
  (∀ v, dict_lookup (out_key p) (reduce_properties p props) = Some v ↔
        dict_lookup (src_key p) props = Some v ∧ truthy v = true).
Proof.
  unfold reduce_properties.
  destruct (dict_lookup (src_key p) props) as [w|]; [destruct (truthy w) eqn:Hw|];
    (split; [simpl; set_solver|]); intros v; simpl;
    rewrite ?decide_True by done.
  - split; [by intros [= <-] | by intros [[= <-] _]].
  - split; [done | intros [[= <-] ?]; congruence].
  - split; [done | by intros [? _]].
Qed.

(** ** Idempotence *)

Lemma reduce_properties_idem p props :
  src_key p = out_key p →
  reduce_properties p (reduce_properties p props) = reduce_properties p props.
Proof.
  intros Heq. unfold reduce_properties at 2 3.
  destruct (dict_lookup (src_key p) props) as [w|]; [|done].
  destruct (truthy w) eqn:Hw; [|done].
  unfold reduce_properties. simpl. rewrite Heq, decide_True by done.
  by rewrite Hw.
Qed.

Lemma dict_set_set {V} k (x y : V) d :
  dict_set k x (dict_set k y d) = dict_set k x d.
Proof.
  induction d as [|[k' z] d IH]; simpl; repeat (case_decide; simpl); congruence.
Qed.

Lemma reduce_feature_idem p feature :
  src_key p = out_key p →
  reduce_feature p (reduce_feature p feature) = reduce_feature p feature.
Proof.
  intros Heq. destruct feature as [| | | | | |f]; try done. simpl.
  destruct (dict_lookup "properties" f) as [[| | | | | |props]|] eqn:Hf;
    simpl; rewrite ?Hf; try done.
  by rewrite dict_lookup_set_eq, reduce_properties_idem, dict_set_set.
Qed.

(** The renaming policy of the road network is not idempotent: a second
    reduction looks for [name1] in a mapping that has at most [name], and
    empties it. *)
Lemma reduce_properties_mrn_twice props :
  reduce_properties mrn_policy (reduce_properties mrn_policy props) = [].
Proof.
  unfold reduce_properties. simpl.
  destruct (dict_lookup "name1" props) as [v|]; [|done]. by destruct (truthy v).
Qed.

(** ** The loop over the features *)

Lemma for_each_list body fs :
  for_each body (PyList fs) = PyList <$> mapM body fs.
Proof. done. Qed.

(** A loop whose body is idempotent is idempotent. *)
Lemma for_each_idem body v v' :
  (∀ x y, body x = Ok y → body y = Ok y) →
  for_each body v = Ok v' → for_each body v' = Ok v'.
Proof.
  intros Hbody. destruct v as [| | | | |fs|]; simpl; try done;
    try (destruct (mapM _ _); intros [= <-]; simpl; by simplify_option_eq).
  - destruct (mapM body (PyStr <$> string_chars s)) eqn:Hs; intros [= <-].
    simpl. by rewrite Hs.
  - intros (fs' & Hfs & ->)%fmap_Ok. rewrite for_each_list.
    apply mapM_Ok in Hfs. rewrite (mapM_fixed body fs'); [done|].
    clear -Hbody Hfs. induction Hfs; constructor; eauto.
  - destruct (mapM body (PyStr <$> dict_keys d)) eqn:Hd; intros [= <-].
    simpl. by rewrite Hd.
Qed.

Lemma remove_extra_properties_feature_Ok feature feature' :
  remove_extra_properties_feature feature = Ok feature' ↔
  is_Some (feature_properties feature) ∧
  feature' = reduce_feature schools_policy feature.
Proof.
  destruct (feature_properties feature) as [props|] eqn:Hp.
  - rewrite (remove_extra_properties_feature_refines _ _ Hp). naive_solver.
  - rewrite remove_extra_properties_feature_Raise by done. split.
    + destruct feature as [| | | | | |f]; try done.
      by destruct (dict_lookup "properties" f).
    + by intros [[? [=]] _].
Qed.

Lemma remove_extra_properties_feature_idem feature feature' :
  remove_extra_properties_feature feature = Ok feature' →
  remove_extra_properties_feature feature' = Ok feature'.
Proof.
  intros [[props Hp] ->]%remove_extra_properties_feature_Ok.
  apply remove_extra_properties_feature_Ok.
  rewrite reduce_feature_idem by done. split; [|done].
  apply feature_properties_Some in Hp as (f & -> & Hf). simpl.
  rewrite Hf. simpl. rewrite dict_lookup_set_eq. eauto.
Qed.

(** C29. What the loop body of [remove_extra_properties] leaves in a
    feature: a dict of properties with no key other than [name], and with
    [name] exactly when the feature had a property [name] with a true
    value, which is kept. *)
Theorem remove_extra_properties_feature_keys feature feature' :
  remove_extra_properties_feature feature = Ok feature' →
  ∃ props props',
    getitem feature "properties" = Ok (PyDict props) ∧
    getitem feature' "properties" = Ok (PyDict props') ∧
    dict_keys props' ⊆ ["name"] ∧
    ∀ v, dict_lookup "name" props' = Some v ↔
         dict_lookup "name" props = Some v ∧ truthy v = true.
Proof.
  intros [[props Hp] ->]%remove_extra_properties_feature_Ok.
  apply feature_properties_Some in Hp as (f & -> & Hf).
  exists props, (reduce_properties schools_policy props). simpl.
  rewrite Hf. simpl. rewrite dict_lookup_set_eq.
  by destruct (reduce_properties_keys schools_policy props).
Qed.

Lemma remove_extra_properties_feature_keys_witness :
  ∃ props props',
    getitem example_school "properties" = Ok (PyDict props) ∧
    getitem (reduce_feature schools_policy example_school) "properties"
      = Ok (PyDict props') ∧
    dict_keys props' ⊆ ["name"] ∧
    ∀ v, dict_lookup "name" props' = Some v ↔
         dict_lookup "name" props = Some v ∧ truthy v = true.
Proof.
  apply (remove_extra_properties_feature_keys example_school). reflexivity.
Defined.

(** C26. Idempotence of the reducer of schools and hospitals: running the
    loop of [remove_extra_properties] on its own result returns it
    unchanged. *)
Theorem remove_extra_properties_gj_idem gj gj' :
  remove_extra_properties_gj gj = Ok gj' →
  remove_extra_properties_gj gj' = Ok gj'.
Proof.
  unfold remove_extra_properties_gj.
  intros (v & Hv & (v' & Hv' & Hset)%bind_Ok)%bind_Ok.
  apply getitem_Ok in Hv as (g & -> & Hg). simpl in Hset.
  injection Hset as <-. simpl. rewrite dict_lookup_set_eq. simpl.
  rewrite (for_each_idem _ v v' remove_extra_properties_feature_idem Hv').
  simpl. by rewrite dict_set_set.
Qed.

Lemma remove_extra_properties_gj_idem_witness :
  remove_extra_properties_gj
    (PyDict [("features", PyList [reduce_feature schools_policy example_school])])
  = Ok (PyDict [("features", PyList [reduce_feature schools_policy example_school])]).
Proof.
  apply (remove_extra_properties_gj_idem
           (PyDict [("features", PyList [example_school])])).
  vm_compute. reflexivity.
Defined.

(** C2. Refinement at the level of the collection: when every feature has
    a dict of properties, the loop returns the collection with every
    feature reduced by the policy; no feature is dropped or moved, and the
    other members of the collection stay as they are. *)
Theorem remove_extra_properties_gj_refines g fs :
  dict_lookup "features" g = Some (PyList fs) →
  Forall (λ feature, is_Some (feature_properties feature)) fs →
  remove_extra_properties_gj (PyDict g) =
  Ok (reduce_collection schools_policy (PyDict g)).
Proof.
  intros Hg Hfs. unfold remove_extra_properties_gj. simpl. rewrite Hg. simpl.
  rewrite (mapM_ext_Forall _ (λ x, Ok (reduce_feature schools_policy x))).
  - by rewrite mapM_pure.
  - eapply Forall_impl; [done|]. intros x [props Hp].
    by eapply remove_extra_properties_feature_refines.
Qed.

Lemma remove_extra_properties_gj_refines_witness :
  remove_extra_properties_gj (PyDict [("features", PyList [example_school])])
  = Ok (reduce_collection schools_policy
          (PyDict [("features", PyList [example_school])])).
Proof.
  apply (remove_extra_properties_gj_refines
           [("features", PyList [example_school])] [example_school]).
  - reflexivity.
  - repeat constructor. vm_compute. eauto.
Defined.

(** C24. The reducer passes the geometry through: every member of a feature
    other than [properties] is after the loop body what it was before. *)
Theorem remove_extra_properties_feature_frame feature feature' k :
  k ≠ "properties" →
  remove_extra_properties_feature feature = Ok feature' →
  getitem feature' k = getitem feature k.
Proof.
  intros Hk [[props Hp] ->]%remove_extra_properties_feature_Ok.
  apply feature_properties_Some in Hp as (f & -> & Hf). simpl. rewrite Hf.
  simpl. by rewrite dict_lookup_set_ne.
Qed.

Lemma remove_extra_properties_feature_frame_witness :
  getitem (reduce_feature schools_policy example_school) "geometry" =
  getitem example_school "geometry".
Proof.
  apply (remove_extra_properties_feature_frame example_school
           (reduce_feature schools_policy example_school) "geometry");
    [discriminate | reflexivity].
Defined.

(** C25. No feature is dropped and none is added: the loop returns a
    collection with as many features as it was given, whatever their
    properties. *)
Theorem remove_extra_properties_gj_length gj gj' fs :
  getitem gj "features" = Ok (PyList fs) →
  remove_extra_properties_gj gj = Ok gj' →
  ∃ fs', getitem gj' "features" = Ok (PyList fs') ∧ length fs' = length fs.
Proof.
  unfold remove_extra_properties_gj. intros Hfs. rewrite Hfs. simpl.
  destruct (mapM _ fs) as [fs'|] eqn:Hm; [|done]. simpl.
  intros Hset. exists fs'. split; [|by apply mapM_length in Hm].
  destruct gj as [| | | | | |g]; try done. injection Hset as <-. simpl.
  by rewrite dict_lookup_set_eq.
Qed.

Lemma remove_extra_properties_gj_length_witness :
  ∃ fs', getitem (reduce_collection schools_policy
                    (PyDict [("features", PyList [example_school; PyDict [("properties", PyDict [])]])]))
           "features" = Ok (PyList fs') ∧
         length fs' = length [example_school; PyDict [("properties", PyDict [])]].
Proof.
  apply (remove_extra_properties_gj_length
           (PyDict [("features", PyList [example_school; PyDict [("properties", PyDict [])]])]));
    reflexivity.
Defined.

(** C32. A feature whose [properties] member is JSON [null], which GeoJSON
    allows, makes the loop body raise [AttributeError]: [None] has no
    method [get]. *)
Theorem remove_extra_properties_feature_null f :
  dict_lookup "properties" f = Some PyNone →
  remove_extra_properties_feature (PyDict f) = Raise (AttributeError PyNone "get").
Proof.
  intros Hf. rewrite remove_extra_properties_feature_Raise; simpl; by rewrite Hf.
Qed.

Lemma remove_extra_properties_feature_null_witness :
  remove_extra_properties_feature
    (PyDict [("type", PyStr "Feature"); ("properties", PyNone)])
  = Raise (AttributeError PyNone "get").
Proof.
  apply (remove_extra_properties_feature_null
           [("type", PyStr "Feature"); ("properties", PyNone)]).
  reflexivity.
Defined.

(** ** The road network *)

(** The loop body of [makeMRN] on a feature of the expected shape. *)
Lemma makeMRN_feature_normalize feature :
  road_ok feature = true → makeMRN_feature feature = Ok (normalize feature).
Proof.
  destruct feature as [| | | | | |f]; try done. simpl.
  destruct (dict_lookup "properties" f) as [[| | | | | |props]|] eqn:Hp;
    try done.
  destruct (dict_lookup "geometry" f) as [[| | | | | |g]|] eqn:Hg; try done.
  destruct (dict_lookup "coordinates" g) as [c|] eqn:Hc; [|done]. intros Hok.
  unfold makeMRN_feature, normalize_feature. simpl.
  rewrite Hp. simpl. rewrite dict_lookup_set_ne, Hg by done. simpl.
  rewrite Hc. simpl. rewrite (proj2 (trim_precision_Ok c _) (conj Hok eq_refl)).
  simpl. by rewrite (reduce_properties_dict_set mrn_policy).
Qed.

(** C7. Refinement, road network: on a feature with a dict of properties
    and a geometry whose coordinates are nested lists of floats, the loop
    body of [makeMRN] reduces the properties by the policy [name1 -> name]
    and rounds every coordinate; the members keep their places. *)
Theorem makeMRN_feature_refines f props g c :
  dict_lookup "properties" f = Some (PyDict props) →
  dict_lookup "geometry" f = Some (PyDict g) →
  dict_lookup "coordinates" g = Some c →
  is_coordinates c = true →
  makeMRN_feature (PyDict f) = Ok (normalize_feature f props g c).
Proof.
  intros Hp Hg Hc Hok.
  rewrite (makeMRN_feature_normalize (PyDict f)); simpl; by rewrite Hp, Hg, Hc.
Qed.

Lemma makeMRN_feature_refines_witness :
  makeMRN_feature (example_road [("name1", PyStr "A414")]) =
  Ok (normalize_feature
        [("type", PyStr "Feature");
         ("properties", PyDict [("name1", PyStr "A414")]);
         ("geometry", PyDict [("type", PyStr "LineString");
                              ("coordinates", PyList [position; position])])]
        [("name1", PyStr "A414")]
        [("type", PyStr "LineString");
         ("coordinates", PyList [position; position])]
        (PyList [position; position])).
Proof.
  apply makeMRN_feature_refines; reflexivity.
Defined.

(** The loop body of [makeMRN] returns on the features of the expected
    shape and on no other. *)
Lemma makeMRN_feature_Ok feature feature' :
  makeMRN_feature feature = Ok feature' ↔
  road_ok feature = true ∧ feature' = normalize feature.
Proof.
  split; [|intros [Hok ->]; by apply makeMRN_feature_normalize].
  destruct (road_ok feature) eqn:Hok.
  { rewrite makeMRN_feature_normalize by done. by intros [= <-]. }
  intros Hm. exfalso. revert Hok Hm.
  destruct feature as [| | | | | |f]; try done. unfold makeMRN_feature. simpl.
  destruct (dict_lookup "properties" f) as [[| | | | | |props]|] eqn:Hp;
    try done.
  simpl. rewrite dict_lookup_set_ne by done.
  destruct (dict_lookup "geometry" f) as [[| | | | | |g]|] eqn:Hg; try done.
  simpl. destruct (dict_lookup "coordinates" g) as [c|] eqn:Hc; [|done].
  simpl. intros Hok. destruct (trim_precision c) eqn:Ht; [|done].
  apply trim_precision_Ok in Ht as [? _]. congruence.
Qed.

(** C40. The loop body of [makeMRN] returns exactly on the features whose
    [properties] and [geometry] members are dicts and whose coordinates are
    nested lists of floats; on every other feature it raises. *)
Theorem makeMRN_feature_is_Ok feature :
  is_Ok (makeMRN_feature feature) = road_ok feature.
Proof.
  destruct (road_ok feature) eqn:Hok; [by rewrite makeMRN_feature_normalize|].
  destruct (makeMRN_feature feature) eqn:Hm; [|done].
  apply makeMRN_feature_Ok in Hm as [? _]. congruence.
Qed.

Lemma road_shape f props g c :
  dict_lookup "properties" f = Some (PyDict props) →
  dict_lookup "geometry" f = Some (PyDict g) →
  dict_lookup "coordinates" g = Some c →
  road_ok (PyDict f) = is_coordinates c ∧
  normalize (PyDict f) = normalize_feature f props g c.
Proof. intros Hp Hg Hc. simpl. by rewrite Hp, Hg, Hc. Qed.

(** C30. The loop body of [makeMRN] is not idempotent: a second pass over a
    feature that it returned finds no property [name1] and leaves the
    feature without any property, the name of the road included; the
    geometry, already rounded, and every other member stay as they are. *)
Theorem makeMRN_feature_twice feature feature' :
  wf_pyval feature = true →
  makeMRN_feature feature = Ok feature' →
  ∃ f, feature' = PyDict f ∧
       makeMRN_feature feature' =
       Ok (PyDict (dict_set "properties" (PyDict []) f)).
Proof.
  intros Hwf [Hok ->]%makeMRN_feature_Ok.
  destruct feature as [| | | | | |f]; try done. simpl in Hok |- *.
  destruct (dict_lookup "properties" f) as [[| | | | | |props]|] eqn:Hp;
    try done.
  destruct (dict_lookup "geometry" f) as [[| | | | | |g]|] eqn:Hg; try done.
  destruct (dict_lookup "coordinates" g) as [c|] eqn:Hc; [|done].
  assert (wf_pyval c = true) as Hwfc by eauto using wf_pyval_lookup.
  eexists. split; [done|]. unfold normalize_feature.
  set (g' := dict_set "coordinates" _ g). set (f' := dict_set "geometry" _ _).
  assert (dict_lookup "geometry" f' = Some (PyDict g')) as Hg'
    by apply dict_lookup_set_eq.
  destruct (road_shape f' (reduce_properties mrn_policy props) g'
              (map_floats round6 c)) as [Hr Hn]; [|done|..].
  { unfold f'. rewrite dict_lookup_set_ne by done. apply dict_lookup_set_eq. }
  { apply dict_lookup_set_eq. }
  rewrite makeMRN_feature_normalize, Hn
    by by rewrite Hr, is_coordinates_map_floats.
  unfold normalize_feature.
  rewrite reduce_properties_mrn_twice, (map_floats_idem round6) by done.
  fold g'. unfold g' at 1. rewrite dict_set_set. fold g'.
  by rewrite dict_set_same by by rewrite dict_lookup_set_ne.
Qed.

Lemma makeMRN_feature_twice_witness :
  ∃ f, normalize (example_road [("name1", PyStr "A414")]) = PyDict f ∧
       makeMRN_feature (normalize (example_road [("name1", PyStr "A414")])) =
       Ok (PyDict (dict_set "properties" (PyDict []) f)).
Proof.
  apply (makeMRN_feature_twice (example_road [("name1", PyStr "A414")]));
    vm_compute; reflexivity.
Defined.

(** C33. A malformed coordinate aborts the loop body with the exception of
    [trim_precision]; the feature is not returned. *)
Theorem makeMRN_feature_bad_coordinate f props g c b :
  dict_lookup "properties" f = Some (PyDict props) →
  dict_lookup "geometry" f = Some (PyDict g) →
  dict_lookup "coordinates" g = Some c →
  first_bad c = Some b →
  makeMRN_feature (PyDict f) = Raise (Exception b).
Proof.
  intros Hp Hg Hc Hb. unfold makeMRN_feature. simpl.
  rewrite Hp. simpl. rewrite dict_lookup_set_ne, Hg by done. simpl.
  rewrite Hc. simpl. by rewrite trim_precision_first_bad, Hb.
Qed.

Lemma makeMRN_feature_bad_coordinate_witness :
  makeMRN_feature
    (PyDict [("properties", PyDict []);
             ("geometry", PyDict [("coordinates", PyList [PyStr "abc"])])])
  = Raise (Exception (PyStr "abc")).
Proof.
  eapply makeMRN_feature_bad_coordinate; reflexivity.
Defined.

(** C8. Refinement, road network collection: on a collection with the
    members [name], [crs] and [features] whose features have the expected
    shape, the clean-up of [makeMRN] returns the collection without [name]
    and [crs] in which every feature is normalised, in the order of the
    input. *)
Theorem makeMRN_cleanup_refines g fs :
  is_Some (dict_lookup "name" g) → is_Some (dict_lookup "crs" g) →
  dict_lookup "features" g = Some (PyList fs) →
  forallb road_ok fs = true →
  makeMRN_cleanup (PyDict g) = Ok (clean_collection g fs).
Proof.
  intros [n Hn] [c Hc] Hfs Hok. unfold makeMRN_cleanup, clean_collection.
  simpl. rewrite Hn. simpl. rewrite dict_lookup_del_ne, Hc by done. simpl.
  rewrite !dict_lookup_del_ne, Hfs by done. simpl.
  rewrite (mapM_ext_Forall _ (λ x, Ok (normalize x))); [by rewrite mapM_pure|].
  apply Is_true_true_2, forallb_True in Hok.
  eapply Forall_impl; [done|]. intros x Hx.
  by apply makeMRN_feature_normalize, Is_true_true_1.
Qed.

Lemma makeMRN_cleanup_refines_witness :
  makeMRN_cleanup (example_mrn [("name1", PyStr "A414")]) =
  Ok (clean_collection
        [("type", PyStr "FeatureCollection");
         ("name", PyStr "Major_Road_Network_2018_Open_Roads");
         ("crs", PyDict [("type", PyStr "name")]);
         ("features", PyList [example_road [("name1", PyStr "A414")]])]
        [example_road [("name1", PyStr "A414")]]).
Proof.
  apply makeMRN_cleanup_refines; [by eexists..|reflexivity|reflexivity].
Defined.

(** C31. The loop stops at the first feature that raises, with the exception
    of that feature: the features before it have been reduced, the features
    after it are not looked at, and nothing is returned. *)
Theorem remove_extra_properties_gj_first_error g fs1 x fs2 e :
  dict_lookup "features" g = Some (PyList (fs1 ++ x :: fs2)) →
  Forall (λ feature, is_Some (feature_properties feature)) fs1 →
  remove_extra_properties_feature x = Raise e →
  remove_extra_properties_gj (PyDict g) = Raise e.
Proof.
  intros Hg Hfs Hx. unfold remove_extra_properties_gj. simpl. rewrite Hg.
  simpl. assert (mapM remove_extra_properties_feature (fs1 ++ x :: fs2)
                 = Raise e) as ->; [|done].
  apply mapM_Raise. exists fs1, x, fs2. split_and!; [done| |done].
  apply Is_true_true_1, forallb_True. eapply Forall_impl; [done|].
  intros y [props Hp]. simpl.
  by rewrite (remove_extra_properties_feature_refines y props).
Qed.

Lemma remove_extra_properties_gj_first_error_witness :
  remove_extra_properties_gj
    (PyDict [("features",
              PyList ([example_school] ++
                      PyDict [("properties", PyNone)] :: [PyInt 0]))]) =
  Raise (AttributeError PyNone "get").
Proof.
  apply (remove_extra_properties_gj_first_error _ [example_school]
           (PyDict [("properties", PyNone)]) [PyInt 0]).
  - reflexivity.
  - repeat constructor. vm_compute. eauto.
  - reflexivity.
Defined.

(** What the clean-up returns: the collection without its members [name]
    and [crs], with a new list of features. *)
Lemma makeMRN_cleanup_Ok gj gj' :
  makeMRN_cleanup gj = Ok gj' →
  ∃ g v, gj = PyDict g ∧
         gj' = PyDict (dict_set "features" v (dict_del "crs" (dict_del "name" g))).
Proof.
  unfold makeMRN_cleanup.
  intros (gj1 & H1 & (gj2 & H2 & (v & Hv & (v' & _ & Hset)%bind_Ok)%bind_Ok)%bind_Ok)%bind_Ok.
  destruct gj as [| | | | | |g]; try done. simpl in H1.
  destruct (dict_lookup "name" g); [|done]. injection H1 as <-.
  simpl in H2. destruct (dict_lookup "crs" (dict_del "name" g)); [|done].
  injection H2 as <-. injection Hset as <-. eauto.
Qed.

(** C27. After the clean-up of [makeMRN] the collection has no member [name]
    and no member [crs]. *)
Theorem makeMRN_cleanup_no_name_crs gj gj' :
  wf_pyval gj = true → makeMRN_cleanup gj = Ok gj' →
  getitem gj' "name" = Raise (KeyError "name") ∧
  getitem gj' "crs" = Raise (KeyError "crs").
Proof.
  intros Hwf (g & v & -> & ->)%makeMRN_cleanup_Ok. simpl in *.
  apply andb_prop in Hwf as [Hnd%bool_decide_eq_true _].
  rewrite !dict_lookup_set_ne by done.
  rewrite dict_lookup_del_ne, (dict_lookup_del_eq "name") by done.
  by rewrite dict_lookup_del_eq by by apply dict_del_NoDup.
Qed.

Lemma makeMRN_cleanup_no_name_crs_witness :
  getitem (default PyNone (result_to_option (makeMRN_cleanup (example_mrn []))))
    "name" = Raise (KeyError "name") ∧
  getitem (default PyNone (result_to_option (makeMRN_cleanup (example_mrn []))))
    "crs" = Raise (KeyError "crs").
Proof.
  apply (makeMRN_cleanup_no_name_crs (example_mrn [])); vm_compute; reflexivity.
Defined.

(** C28. The clean-up of [makeMRN] cannot run twice: on its own result it
    raises [KeyError], the member [name] is gone. *)
Theorem makeMRN_cleanup_twice gj gj' :
  wf_pyval gj = true → makeMRN_cleanup gj = Ok gj' →
  makeMRN_cleanup gj' = Raise (KeyError "name").
Proof.
  intros Hwf (g & v & -> & ->)%makeMRN_cleanup_Ok. simpl in *.
  apply andb_prop in Hwf as [Hnd%bool_decide_eq_true _].
  unfold makeMRN_cleanup. simpl.
  by rewrite dict_lookup_set_ne, dict_lookup_del_ne, dict_lookup_del_eq by done.
Qed.

Lemma makeMRN_cleanup_twice_witness :
  makeMRN_cleanup
    (default PyNone (result_to_option (makeMRN_cleanup (example_mrn []))))
  = Raise (KeyError "name").
Proof.
  apply (makeMRN_cleanup_twice (example_mrn [])); vm_compute; reflexivity.
Defined.

End reducer.
