(* ===== verification/World.v ===== *)
(** * World: files, standard output, external tools, and the effect monad

    The script of src/layers/generate_layers.py acts on the working
    directory ([os.remove], [shutil.rmtree], [open]), on standard output
    ([print]) and on the outside world through [subprocess.run].  This file
    models the state these act on ([world]), the external tools as a type
    class ([Tools]: what a command does to the files and to the outside
    world, and its return code), and the monad [M] of programs that can raise:
    a program maps a world to a result and a world, and the world after an
    exception is the world at the [raise], as in Python.

    A file holds either the value that [json.load] would read from it
    ([JsonFile]) or other content ([OtherFile]); the text of a JSON document
    is not modelled, [json.dumps] followed by [json.load] is the identity on
    the values [json.load] produces. *)

From Stdlib Require Import ZArith.
From stdpp Require Import base option list strings gmap.
From S2P Require Import Prelude PyFloat PyValue.

(** ** State *)

Inductive file : Type :=
  | JsonFile (v : pyval)
  | OtherFile (content : string).

(** The working directory: regular files by path, and the directories. *)
Record fsys : Type := Fsys {
  files : gmap string file;
  dirs : gset string;
}.

(** How [subprocess.run] ends: the process exited with a return code, or it
    could not be started (the executable is missing). *)
Inductive completed : Type :=
  | Exited (returncode : Z)
  | NotStarted.

(** The external tools: a command line, the files and the state of the
    outside world (the network, the clock) determine the outcome. *)
Class Tools (X : Type) : Type :=
  tool_exec : list string → fsys → X → completed * fsys * X.

Record world (X : Type) : Type := World {
  w_fs : fsys;
  w_ext : X;
  w_stdout : list string;
  w_cmds : list (list string);
}.
Arguments World {X} _ _ _ _.
Arguments w_fs {X} _.
Arguments w_ext {X} _.
Arguments w_stdout {X} _.
Arguments w_cmds {X} _.

(** [p] is below the directory [dir]. *)
Definition under (dir p : string) : Prop :=
  String.prefix (dir +:+ "/") p = true.

#[export] Instance under_dec dir p : Decision (under dir p).
Proof. unfold under. apply _. Defined.

(** [" ".join(args)] *)
Fixpoint join (sep : string) (l : list string) : string :=
  match l with
  | [] => ""
  | [s] => s
  | s :: l' => s +:+ sep +:+ join sep l'
  end.

Section monad.
Context {X : Type} `{!Tools X}.

(** ** The monad *)

Definition M (A : Type) : Type := world X → result exn A * world X.

#[export] Instance M_ret : MRet M := λ A a w, (Ok a, w).
#[export] Instance M_bind : MBind M := λ A B f m w,
  match m w with
  | (Ok a, w') => f a w'
  | (Raise e, w') => (Raise e, w')
  end.

Definition raise {A} (e : exn) : M A := λ w, (Raise e, w).

(** A pure computation that can raise. *)
Definition lift {A} (r : result exn A) : M A := λ w, (r, w).

(** [try: m  except: pass] *)
Definition try_pass (m : M unit) : M unit := λ w, (Ok tt, (m w).2).

Definition get_fs : M fsys := λ w, (Ok (w_fs w), w).
Definition put_fs (fs : fsys) : M unit := λ w,
  (Ok tt, World fs (w_ext w) (w_stdout w) (w_cmds w)).

(** ** Standard output *)

Definition print (line : string) : M unit := λ w,
  (Ok tt, World (w_fs w) (w_ext w) (w_stdout w ++ [line]) (w_cmds w)).

(** ** Files *)

(** [os.remove(path)] *)
Definition os_remove (path : string) : M unit :=
  fs ← get_fs;
  if decide (path ∈ dirs fs) then raise (IsADirectoryError path)
  else match files fs !! path with
       | Some _ => put_fs (Fsys (delete path (files fs)) (dirs fs))
       | None => raise (FileNotFoundError path)
       end.

(** [shutil.rmtree(path)]: the directory and everything below it. *)
Definition shutil_rmtree (path : string) : M unit :=
  fs ← get_fs;
  if decide (path ∈ dirs fs) then
    put_fs (Fsys (filter (λ kv, ¬ under path kv.1) (files fs))
                 (filter (λ d, d ≠ path ∧ ¬ under path d) (dirs fs)))
  else match files fs !! path with
       | Some _ => raise (NotADirectoryError path)
       | None => raise (FileNotFoundError path)
       end.

(** [with open(path) as f: gj = json.load(f)] *)
Definition json_load (path : string) : M pyval :=
  fs ← get_fs;
  if decide (path ∈ dirs fs) then raise (IsADirectoryError path)
  else match files fs !! path with
       | Some (JsonFile v) => mret v
       | Some (OtherFile _) => raise (JSONDecodeError path)
       | None => raise (FileNotFoundError path)
       end.

(** [with open(path, "w") as f: f.write(json.dumps(gj))] *)
Definition json_dump (path : string) (gj : pyval) : M unit :=
  fs ← get_fs;
  if decide (path ∈ dirs fs) then raise (IsADirectoryError path)
  else put_fs (Fsys (<[path := JsonFile gj]> (files fs)) (dirs fs)).

(** ** External commands *)

(** [subprocess.run(args, check=True)] *)
Definition subprocess_run (args : list string) : M unit := λ w,
  let '(c, fs, x) := tool_exec args (w_fs w) (w_ext w) in
  let w' := World fs x (w_stdout w) (w_cmds w ++ [args]) in
  match c with
  | Exited 0 => (Ok tt, w')
  | Exited rc => (Raise (CalledProcessError rc args), w')
  | NotStarted => (Raise (OSError args), w')
  end.

(** Lines 186-188: [run]. *)
Definition run (args : list string) : M unit :=
  print ("> " +:+ join " " args);;
  subprocess_run args.

(** ** Specifications of programs: the commands they run *)

(** A program that runs no external command. *)
Definition silent {A} (m : M A) : Prop :=
  ∀ w, w_cmds (m w).2 = w_cmds w.

(** [runs m cs]: from every world, [m] runs a prefix of the commands [cs],
    in that order and nothing else, and all of them when it returns. *)
Definition runs {A} (m : M A) (cs : list (list string)) : Prop :=
  ∀ w, ∃ cs', cs' `prefix_of` cs ∧ w_cmds (m w).2 = w_cmds w ++ cs' ∧
              (is_Ok (m w).1 = true → cs' = cs).

(** The lines of standard output that announce a command. *)
Definition is_command_line (line : string) : bool := String.prefix "> " line.

(** [announces m]: what [m] adds to standard output announces the commands
    that [m] runs, one line per command, in the order in which they run; no
    other line that [m] prints looks like an announcement. *)
Definition announces {A} (m : M A) : Prop :=
  ∀ w, ∃ out cs,
    w_stdout (m w).2 = w_stdout w ++ out ∧ w_cmds (m w).2 = w_cmds w ++ cs ∧
    filter (λ line, is_command_line line) out = (λ c, "> " +:+ join " " c) <$> cs.

(** A program that leaves the files and directories as they are. *)
Definition keeps_files {A} (m : M A) : Prop :=
  ∀ w, w_fs (m w).2 = w_fs w.

(** A program that acts on the files and directories only: it prints
    nothing, runs no command and leaves the outside world alone. *)
Definition files_only {A} (m : M A) : Prop :=
  ∀ w, (m w).2 = World (w_fs (m w).2) (w_ext w) (w_stdout w) (w_cmds w).

(** * Theorems *)

Implicit Types (w : world X) (e : exn).

(** ** Laws of the monad *)

Lemma M_bind_unfold {A B} (m : M A) (f : A → M B) w :
  (m ≫= f) w =
  match m w with (Ok a, w') => f a w' | (Raise e, w') => (Raise e, w') end.
Proof. done. Qed.

Lemma M_bind_Ok_l {A B} (m : M A) (f : A → M B) w a w' :
  m w = (Ok a, w') → (m ≫= f) w = f a w'.
Proof. intros H. by rewrite M_bind_unfold, H. Qed.

Lemma M_bind_Raise_l {A B} (m : M A) (f : A → M B) w e w' :
  m w = (Raise e, w') → (m ≫= f) w = (Raise e, w').
Proof. intros H. by rewrite M_bind_unfold, H. Qed.

Lemma M_bind_Ok {A B} (m : M A) (f : A → M B) w b w2 :
  (m ≫= f) w = (Ok b, w2) ↔ ∃ a w1, m w = (Ok a, w1) ∧ f a w1 = (Ok b, w2).
Proof.
  rewrite M_bind_unfold. destruct (m w) as [[a|e] w1]; split.
  - eauto.
  - by intros (? & ? & [= <- <-] & ?).
  - done.
  - by intros (? & ? & [=] & ?).
Qed.

Lemma M_bind_assoc {A B C} (m : M A) (f : A → M B) (g : B → M C) w :
  ((m ≫= f) ≫= g) w = (m ≫= λ a, f a ≫= g) w.
Proof. rewrite !M_bind_unfold. by destruct (m w) as [[a|e] w1]. Qed.

Lemma try_pass_Ok (m : M unit) w : (try_pass m w).1 = Ok tt.
Proof. done. Qed.

(** ** Files *)

Lemma os_remove_present path w f :
  path ∉ dirs (w_fs w) → files (w_fs w) !! path = Some f →
  os_remove path w =
  (Ok tt, World (Fsys (delete path (files (w_fs w))) (dirs (w_fs w)))
                (w_ext w) (w_stdout w) (w_cmds w)).
Proof.
  intros Hd Hf. unfold os_remove. rewrite M_bind_unfold. simpl.
  by rewrite decide_False, Hf by done.
Qed.

(** [os.remove] of a path that holds no regular file raises, and changes
    nothing. *)
Lemma os_remove_missing path w :
  files (w_fs w) !! path = None → ∃ e, os_remove path w = (Raise e, w).
Proof.
  intros Hf. unfold os_remove. rewrite M_bind_unfold. simpl.
  case_decide; [by eexists|]. rewrite Hf. by eexists.
Qed.

Lemma try_pass_unfold (m : M unit) w : try_pass m w = (Ok tt, (m w).2).
Proof. done. Qed.

(** [shutil.rmtree] of a directory removes it with every file and directory
    below it. *)
Lemma shutil_rmtree_present path w :
  path ∈ dirs (w_fs w) →
  shutil_rmtree path w =
  (Ok tt, World (Fsys (filter (λ kv, ¬ under path kv.1) (files (w_fs w)))
                      (filter (λ d, d ≠ path ∧ ¬ under path d) (dirs (w_fs w))))
                (w_ext w) (w_stdout w) (w_cmds w)).
Proof.
  intros Hd. unfold shutil_rmtree. rewrite M_bind_unfold. simpl.
  by rewrite decide_True by done.
Qed.

Lemma shutil_rmtree_missing path w :
  path ∉ dirs (w_fs w) → ∃ e, shutil_rmtree path w = (Raise e, w).
Proof.
  intros Hd. unfold shutil_rmtree. rewrite M_bind_unfold. simpl.
  rewrite decide_False by done.
  destruct (files (w_fs w) !! path); by eexists.
Qed.

(** What is left of the files after [shutil.rmtree]: the files that are not
    below the directory. *)
Lemma lookup_rmtree path (fs : gmap string file) p :
  filter (λ kv, ¬ under path kv.1) fs !! p =
  if decide (under path p) then None else fs !! p.
Proof.
  case_decide as Hu.
  - apply map_lookup_filter_None. right. intros f _. simpl. tauto.
  - destruct (fs !! p) as [f|] eqn:Hp.
    + by apply map_lookup_filter_Some.
    + apply map_lookup_filter_None. by left.
Qed.

Lemma os_remove_absent path w :
  path ∉ dirs (w_fs w) → files (w_fs w) !! path = None →
  os_remove path w = (Raise (FileNotFoundError path), w).
Proof.
  intros Hd Hf. unfold os_remove. rewrite M_bind_unfold. simpl.
  by rewrite decide_False, Hf by done.
Qed.

Lemma json_load_Ok path w v w' :
  json_load path w = (Ok v, w') ↔
  w' = w ∧ path ∉ dirs (w_fs w) ∧ files (w_fs w) !! path = Some (JsonFile v).
Proof.
  unfold json_load. rewrite M_bind_unfold. simpl.
  destruct (decide (path ∈ dirs (w_fs w))); [unfold raise; naive_solver|].
  destruct (files (w_fs w) !! path) as [[]|]; unfold raise, mret, M_ret;
    naive_solver.
Qed.

Lemma json_load_present path w v :
  path ∉ dirs (w_fs w) → files (w_fs w) !! path = Some (JsonFile v) →
  json_load path w = (Ok v, w).
Proof. intros. by apply json_load_Ok. Qed.

Lemma json_dump_Ok path gj w :
  path ∉ dirs (w_fs w) →
  json_dump path gj w =
  (Ok tt, World (Fsys (<[path := JsonFile gj]> (files (w_fs w))) (dirs (w_fs w)))
                (w_ext w) (w_stdout w) (w_cmds w)).
Proof.
  intros Hd. unfold json_dump. rewrite M_bind_unfold. simpl.
  by rewrite decide_False by done.
Qed.

(** Reading never changes the world, whether it returns or raises. *)
Lemma json_load_world path w : (json_load path w).2 = w.
Proof.
  unfold json_load. rewrite M_bind_unfold. simpl.
  destruct (decide (path ∈ dirs (w_fs w))); [done|].
  by destruct (files (w_fs w) !! path) as [[]|].
Qed.

(** ** External commands *)

Lemma run_unfold args w :
  run args w =
  subprocess_run args
    (World (w_fs w) (w_ext w) (w_stdout w ++ ["> " +:+ join " " args]) (w_cmds w)).
Proof. done. Qed.

(** Whatever the tool does, [run] logs the command line and records the
    command exactly once. *)
Lemma run_trace args w :
  w_cmds (run args w).2 = w_cmds w ++ [args] ∧
  w_stdout (run args w).2 = w_stdout w ++ ["> " +:+ join " " args].
Proof.
  rewrite run_unfold. unfold subprocess_run. simpl.
  destruct (tool_exec _ _ _) as [[[[]|] fs] x]; done.
Qed.

Lemma run_cmds args w r w' :
  run args w = (r, w') → w_cmds w' = w_cmds w ++ [args].
Proof. intros Hr. pose proof (run_trace args w) as [Ht _]. by rewrite Hr in Ht. Qed.

Lemma run_Ok args w w' :
  run args w = (Ok tt, w') ↔
  ∃ fs x, tool_exec args (w_fs w) (w_ext w) = (Exited 0, fs, x) ∧
          w' = World fs x (w_stdout w ++ ["> " +:+ join " " args])
                     (w_cmds w ++ [args]).
Proof.
  rewrite run_unfold. unfold subprocess_run. simpl.
  destruct (tool_exec _ _ _) as [[[[]|] fs] x]; naive_solver.
Qed.

Lemma run_Raise args w e w' :
  run args w = (Raise e, w') ↔
  ∃ c fs x, tool_exec args (w_fs w) (w_ext w) = (c, fs, x) ∧
            w' = World fs x (w_stdout w ++ ["> " +:+ join " " args])
                       (w_cmds w ++ [args]) ∧
            match c with
            | Exited 0 => False
            | Exited rc => e = CalledProcessError rc args
            | NotStarted => e = OSError args
            end.
Proof.
  rewrite run_unfold. unfold subprocess_run. simpl.
  destruct (tool_exec _ _ _) as [[[[]|] fs] x]; naive_solver.
Qed.

Lemma run_fails args w rc fs x :
  tool_exec args (w_fs w) (w_ext w) = (Exited rc, fs, x) → rc ≠ 0%Z →
  run args w =
  (Raise (CalledProcessError rc args),
   World fs x (w_stdout w ++ ["> " +:+ join " " args]) (w_cmds w ++ [args])).
Proof.
  intros Ht Hrc. rewrite run_unfold. unfold subprocess_run. simpl.
  rewrite Ht. by destruct rc.
Qed.

(** [run] raises [CalledProcessError] or [OSError], never [Exception]. *)
Lemma run_not_Exception args w d : (run args w).1 ≠ Raise (Exception d).
Proof.
  destruct (run args w) as [[[]|e] w'] eqn:Hr; [done|]. simpl. intros [= ->].
  apply run_Raise in Hr as (c & ? & ? & _ & _ & Hc). by destruct c as [[]|].
Qed.

(** So, when a program that starts with a command raises [Exception], the
    command returned. *)
Lemma run_bind_Exception {A} args (k : M A) w d :
  ((run args;; k) w).1 = Raise (Exception d) →
  ∃ w1, run args w = (Ok tt, w1) ∧ (run args;; k) w = k w1.
Proof.
  rewrite M_bind_unfold. pose proof (run_not_Exception args w d) as Hn.
  destruct (run args w) as [[[]|e] w1]; simpl in *; [eauto|congruence].
Qed.

(** ** The commands a program runs *)

Lemma silent_ret {A} (a : A) : silent (mret a).
Proof. done. Qed.

Lemma silent_raise {A} e : silent (raise (A:=A) e).
Proof. done. Qed.

Lemma silent_lift {A} (r : result exn A) : silent (lift r).
Proof. done. Qed.

Lemma silent_print line : silent (print line).
Proof. done. Qed.

Lemma silent_get_fs : silent get_fs.
Proof. done. Qed.

Lemma silent_put_fs fs : silent (put_fs fs).
Proof. done. Qed.

Lemma silent_bind {A B} (m : M A) (f : A → M B) :
  silent m → (∀ a, silent (f a)) → silent (m ≫= f).
Proof.
  intros Hm Hf w. rewrite M_bind_unfold. specialize (Hm w).
  destruct (m w) as [[a|e] w1]; simpl in *; [|done]. by rewrite Hf.
Qed.

Lemma silent_try_pass (m : M unit) : silent m → silent (try_pass m).
Proof. intros Hm w. apply Hm. Qed.

Lemma silent_os_remove path : silent (os_remove path).
Proof.
  apply silent_bind; [done|]. intros fs. case_decide; [done|].
  by destruct (files fs !! path).
Qed.

Lemma silent_shutil_rmtree path : silent (shutil_rmtree path).
Proof.
  apply silent_bind; [done|]. intros fs. case_decide; [done|].
  by destruct (files fs !! path).
Qed.

Lemma silent_json_load path : silent (json_load path).
Proof. intros w. by rewrite json_load_world. Qed.

Lemma silent_json_dump path gj : silent (json_dump path gj).
Proof. apply silent_bind; [done|]. intros fs. by case_decide. Qed.

Lemma runs_silent {A} (m : M A) : silent m → runs m [].
Proof. intros Hm w. exists []. by rewrite Hm, app_nil_r. Qed.

Lemma runs_run args : runs (run args) [args].
Proof.
  intros w. exists [args]. destruct (run_trace args w) as [-> _]. done.
Qed.

(** Sequencing: the commands of [m], then those of the continuation; when
    [m] raises, the continuation runs nothing. *)
Lemma runs_bind {A B} (m : M A) (f : A → M B) cs1 cs2 :
  runs m cs1 → (∀ a, runs (f a) cs2) → runs (m ≫= f) (cs1 ++ cs2).
Proof.
  intros Hm Hf w. rewrite M_bind_unfold.
  destruct (Hm w) as (cs1' & Hpre & Hc & Hok).
  destruct (m w) as [[a|e] w1]; simpl in *.
  - rewrite (Hok eq_refl) in *. destruct (Hf a w1) as (cs2' & Hpre2 & Hc2 & Hok2).
    exists (cs1 ++ cs2'). split; [by apply prefix_app|].
    rewrite Hc2, Hc, <-(assoc (++)). split; [done|].
    intros ?. by rewrite Hok2.
  - exists cs1'. split; [by apply prefix_app_r|]. done.
Qed.

Lemma runs_silent_bind {A B} (m : M A) (f : A → M B) cs :
  silent m → (∀ a, runs (f a) cs) → runs (m ≫= f) cs.
Proof. intros. by apply (runs_bind m f [] cs); [apply runs_silent|]. Qed.

(** ** Programs that keep the files *)

(** ** What a program prints about the commands it runs *)

(** A program that neither prints nor runs a command. *)
Lemma announces_quiet {A} (m : M A) :
  (∀ w, w_stdout (m w).2 = w_stdout w ∧ w_cmds (m w).2 = w_cmds w) →
  announces m.
Proof.
  intros Hm w. destruct (Hm w) as [-> ->]. exists [], [].
  by rewrite !app_nil_r.
Qed.

Lemma announces_ret {A} (a : A) : announces (mret a).
Proof. by apply announces_quiet. Qed.

Lemma announces_raise {A} e : announces (raise (A:=A) e).
Proof. by apply announces_quiet. Qed.

Lemma announces_lift {A} (r : result exn A) : announces (lift r).
Proof. by apply announces_quiet. Qed.

Lemma announces_get_fs : announces get_fs.
Proof. by apply announces_quiet. Qed.

Lemma announces_put_fs fs : announces (put_fs fs).
Proof. by apply announces_quiet. Qed.

Lemma announces_print line :
  is_command_line line = false → announces (print line).
Proof.
  intros Hl w. exists [line], []. split_and!; [done|by rewrite app_nil_r|].
  rewrite filter_cons_False, filter_nil; [done|]. rewrite Hl. exact id.
Qed.

Lemma announces_bind {A B} (m : M A) (f : A → M B) :
  announces m → (∀ a, announces (f a)) → announces (m ≫= f).
Proof.
  intros Hm Hf w. rewrite M_bind_unfold.
  destruct (Hm w) as (out1 & cs1 & Ho1 & Hc1 & H1).
  destruct (m w) as [[a|e] w1]; simpl in *; [|by exists out1, cs1].
  destruct (Hf a w1) as (out2 & cs2 & Ho2 & Hc2 & H2).
  exists (out1 ++ out2), (cs1 ++ cs2).
  by rewrite Ho2, Hc2, Ho1, Hc1, filter_app, H1, H2, fmap_app, <- !app_assoc.
Qed.

Lemma announces_try_pass (m : M unit) : announces m → announces (try_pass m).
Proof. intros Hm w. destruct (Hm w) as (out & cs & ?). by exists out, cs. Qed.

Lemma is_command_line_announce s : is_command_line ("> " +:+ s) = true.
Proof.
  unfold is_command_line. rewrite !string_app_cons. simpl.
  by destruct (_ +:+ s).
Qed.

Lemma announces_run args : announces (run args).
Proof.
  intros w. destruct (run_trace args w) as [Hc Ho].
  exists ["> " +:+ join " " args], [args]. split_and!; [done..|].
  rewrite filter_cons_True, filter_nil; [done|].
  by rewrite is_command_line_announce.
Qed.

Lemma announces_os_remove path : announces (os_remove path).
Proof.
  apply announces_bind; [apply announces_get_fs|]. intros fs.
  case_decide; [apply announces_raise|].
  destruct (files fs !! path); [apply announces_put_fs|apply announces_raise].
Qed.

Lemma announces_shutil_rmtree path : announces (shutil_rmtree path).
Proof.
  apply announces_bind; [apply announces_get_fs|]. intros fs.
  case_decide; [apply announces_put_fs|].
  destruct (files fs !! path); apply announces_raise.
Qed.

Lemma announces_json_load path : announces (json_load path).
Proof.
  apply announces_bind; [apply announces_get_fs|]. intros fs.
  case_decide; [apply announces_raise|].
  destruct (files fs !! path) as [[]|];
    [apply announces_ret|apply announces_raise..].
Qed.

Lemma announces_json_dump path gj : announces (json_dump path gj).
Proof.
  apply announces_bind; [apply announces_get_fs|]. intros fs.
  case_decide; [apply announces_raise|apply announces_put_fs].
Qed.

(** A program that returns has run all of its commands. *)
Lemma runs_Ok {A} (m : M A) cs w a w' :
  runs m cs → m w = (Ok a, w') → w_cmds w' = w_cmds w ++ cs.
Proof.
  intros Hm Hw. destruct (Hm w) as (cs' & _ & Hc & Hok).
  rewrite Hw in Hc, Hok. simpl in *. by rewrite <- Hok.
Qed.

Lemma keeps_files_bind {A B} (m : M A) (f : A → M B) :
  keeps_files m → (∀ a, keeps_files (f a)) → keeps_files (m ≫= f).
Proof.
  intros Hm Hf w. rewrite M_bind_unfold. specialize (Hm w).
  destruct (m w) as [[a|e] w1]; simpl in *; [|done]. by rewrite Hf.
Qed.

Lemma keeps_files_print line : keeps_files (print line).
Proof. done. Qed.

Lemma keeps_files_lift {A} (r : result exn A) : keeps_files (lift r).
Proof. done. Qed.

Lemma keeps_files_json_load path : keeps_files (json_load path).
Proof. intros w. by rewrite json_load_world. Qed.

(** ** Programs that act on the files only *)

Lemma files_only_bind {A B} (m : M A) (f : A → M B) :
  files_only m → (∀ a, files_only (f a)) → files_only (m ≫= f).
Proof.
  intros Hm Hf w. rewrite M_bind_unfold. specialize (Hm w).
  destruct (m w) as [[a|e] w1]; simpl in *; [|done].
  rewrite (Hf a w1) at 1. by rewrite Hm.
Qed.

Lemma files_only_try_pass (m : M unit) : files_only m → files_only (try_pass m).
Proof. intros Hm w. apply Hm. Qed.

Lemma files_only_os_remove path : files_only (os_remove path).
Proof.
  intros [fs x out cs]. unfold os_remove. rewrite M_bind_unfold. simpl.
  case_decide; [done|]. by destruct (files fs !! path).
Qed.

Lemma files_only_shutil_rmtree path : files_only (shutil_rmtree path).
Proof.
  intros [fs x out cs]. unfold shutil_rmtree. rewrite M_bind_unfold. simpl.
  case_decide; [done|]. by destruct (files fs !! path).
Qed.

(** ** Commands that exit with status 0 *)

Lemma run_succeeds args w fs x :
  tool_exec args (w_fs w) (w_ext w) = (Exited 0, fs, x) →
  run args w =
  (Ok tt, World fs x (w_stdout w ++ ["> " +:+ join " " args])
                (w_cmds w ++ [args])).
Proof. intros Ht. apply run_Ok. eauto. Qed.

(** The world in which the rest of a program runs after a command that
    returned. *)
Lemma run_bind_Ok {A} args (k : M A) w a w' :
  (run args;; k) w = (Ok a, w') ↔
  ∃ fs x, tool_exec args (w_fs w) (w_ext w) = (Exited 0, fs, x) ∧
          k (World fs x (w_stdout w ++ ["> " +:+ join " " args])
                   (w_cmds w ++ [args])) = (Ok a, w').
Proof.
  rewrite M_bind_Ok. split.
  - intros ([] & w1 & (fs & x & Ht & ->)%run_Ok & Hk). eauto.
  - intros (fs & x & Ht & Hk). eauto using run_succeeds.
Qed.

(** The world in which the rest of a program runs after a clean-up under
    [try: ... except: pass]: the files are what the clean-up left, whether
    it completed or not, and nothing else has changed. *)
Lemma try_pass_bind {A} (m : M unit) (k : M A) w :
  files_only m →
  (try_pass m;; k) w =
  k (World (w_fs (try_pass m w).2) (w_ext w) (w_stdout w) (w_cmds w)).
Proof. intros Hm. rewrite M_bind_unfold. simpl. by rewrite <- Hm. Qed.
End monad.

#[export] Hint Resolve silent_ret silent_raise silent_lift silent_print
  silent_os_remove silent_shutil_rmtree silent_json_load silent_json_dump
  runs_run keeps_files_print keeps_files_lift keeps_files_json_load : py.
#[export] Hint Resolve announces_ret announces_raise announces_lift
  announces_os_remove announces_shutil_rmtree announces_json_load
  announces_json_dump announces_run : py.
#[export] Hint Resolve files_only_os_remove files_only_shutil_rmtree : py.

Arguments M : clear implicits.

(** Proves [announces m] for a sequence of statements whose printed lines
    are given. *)
Ltac solve_announces :=
  repeat match goal with
         | |- announces (mbind _ _) => apply announces_bind; [|intros ?]
         | |- announces (try_pass _) => apply announces_try_pass
         | |- announces (print _) => apply announces_print; reflexivity
         | |- announces _ => solve [eauto with py]
         end.

(** Proves [silent m] for a sequence of silent statements. *)
Ltac solve_silent :=
  repeat match goal with
         | |- silent (mbind _ _) => apply silent_bind; [|intros ?]
         | |- silent (try_pass _) => apply silent_try_pass
         | |- silent _ => solve [eauto with py]
         end.

(** Proves [files_only m] for a sequence of removals. *)
Ltac solve_files_only :=
  repeat match goal with
         | |- files_only (mbind _ _) => apply files_only_bind; [|intros ?]
         | |- files_only (try_pass _) => apply files_only_try_pass
         | |- files_only _ => solve [eauto with py]
         end.

(** Proves [runs m cs] for a sequence of statements of which some are
    [run c], with [cs] the list of these commands. *)
Ltac solve_runs :=
  repeat match goal with
         | |- runs (run _) _ => apply runs_run
         | |- runs (mbind _ (run _)) _ =>
             apply (runs_bind _ _ [_] _); [apply runs_run | intros ?]
         | |- runs (mbind _ _) _ =>
             apply runs_silent_bind; [solve [solve_silent] | intros ?]
         | |- runs _ [] => apply runs_silent; solve [solve_silent]
         end.
