(* ===== verification/Pipeline.v ===== *)
(** * Pipeline: the four layers and [main]

    The functions of src/layers/generate_layers.py that sequence the work:
    [remove_extra_properties] (lines 192-206), [generatePolygonAmenity]
    (lines 39-77), [makeMRN] (lines 80-135),
    [makeParliamentaryConstituencies] (lines 138-183) and [main] (lines
    27-35, after [parse_args]), as programs of the monad [M] of [World].  Each starts by deleting
    the files of a previous run inside [try: ... except: pass], then runs its
    external commands with [run], which raises when a command fails.

    The theorems are stated for every instance of [Tools]: they constrain
    what the script does, whatever the tools do. *)

From Stdlib Require Import ZArith.
From stdpp Require Import base option list strings gmap.
From S2P Require Import Prelude PyFloat PyValue TrimPrecision Reducer World.

(** Line 23: the namespace that [parse_args] returns. *)
Record args : Type := Args { osm_input : string }.

(** ** A concrete world, for the examples *)

(** Tools that leave the files as they are.  The state of the outside world
    names one program and its exit status (say, [wget] and 4 when the network
    is down); every other program exits with status 0. *)
#[export] Instance demo_tools : Tools (string * Z) := λ args fs x,
  (Exited (if decide (head args = Some x.1) then x.2 else 0), fs, x).

Definition demo_args : args := Args "england-latest.osm.pbf".

Definition demo_collection : pyval :=
  PyDict [("features", PyList [example_school])].

(** The directory after an interrupted run: the GeoJSON and the tiles of the
    schools are there, the filtered extract is not; the road network has
    been converted, and one of its roads has a coordinate that is a
    string. *)
Definition demo_files : gmap string file :=
  {[ "schools.geojson" := JsonFile demo_collection;
     "schools.pmtiles" := OtherFile "tiles of the last run";
     "mrn/mrn.geojson" :=
       JsonFile (PyDict [("name", PyStr "Major_Road_Network_2018_Open_Roads");
                         ("crs", PyNone);
                         ("features", PyList [
         PyDict [("geometry", PyDict [("coordinates",
                    PyList [PyFloat f_lon; PyStr "abc"])]);
                 ("properties", PyDict [("name1", PyStr "A414")])]])]) ]}.

Definition demo_world (program : string) (status : Z) : world (string * Z) :=
  World (Fsys demo_files {[ "mrn" ]}) (program, status) [] [].

(** The directory after a complete run of the layer of the schools. *)
Definition demo_world_complete : world (string * Z) :=
  World (Fsys (<[ "schools.osm.pbf" := OtherFile "extract" ]> demo_files) ∅)
        ("wget", 4%Z) [] [].

(** The files of the road network after a run: the tiles and the converted
    GeoJSON, with one road. *)
Definition demo_roads : gmap string file :=
  {[ "mrn.pmtiles" := OtherFile "tiles of the last run";
     "mrn/mrn.geojson" := JsonFile (example_mrn [("name1", PyStr "A414")]) ]}.

Definition demo_world_roads (fs : gmap string file) : world (string * Z) :=
  World (Fsys fs {[ "mrn" ]}) ("wget", 0%Z) [] [].

Section pipeline.
Context {X : Type} `{!Tools X}.
#[local] Notation M := (M X).

(** ** The code *)

(** Lines 192-206. *)
Definition remove_extra_properties (path : string) : M unit :=
  print ("Removing extra properties from " +:+ path);;
  gj ← json_load path;
  gj ← lift (remove_extra_properties_gj gj);
  json_dump path gj.

(** Lines 41-46: the files of a previous run. *)
Definition generatePolygonAmenity_clean (filename : string) : M unit :=
  try_pass (
    os_remove (filename +:+ ".osm.pbf");;
    os_remove (filename +:+ ".geojson");;
    os_remove (filename +:+ ".pmtiles")).

(** The command lines of lines 50-59, 62-71 and 77. *)
Definition osmium_tags_filter (a : args) (amenity filename : string)
    : list string :=
  ["osmium"; "tags-filter"; osm_input a; "nwr/amenity=" +:+ amenity;
   "-o"; filename +:+ ".osm.pbf"].

Definition osmium_export (filename : string) : list string :=
  ["osmium"; "export"; filename +:+ ".osm.pbf"; "--geometry-type=polygon";
   "-o"; filename +:+ ".geojson"].

Definition tippecanoe (input output : string) : list string :=
  ["tippecanoe"; input; "-o"; output].

(** Lines 39-77. *)
Definition generatePolygonAmenity (a : args) (amenity filename : string)
    : M unit :=
  generatePolygonAmenity_clean filename;;
  run (osmium_tags_filter a amenity filename);;
  run (osmium_export filename);;
  remove_extra_properties (filename +:+ ".geojson");;
  run (tippecanoe (filename +:+ ".geojson") (filename +:+ ".pmtiles")).

(** Lines 82-87. *)
Definition makeMRN_clean : M unit :=
  try_pass (
    os_remove "Major_Road_Network_2018_Open_Roads.zip";;
    shutil_rmtree "mrn";;
    os_remove "mrn.pmtiles").

(** Lines 112-132: the clean-up of [mrn/mrn.geojson] in place. *)
Definition makeMRN_rewrite : M unit :=
  let path := "mrn/mrn.geojson" in
  print ("Cleaning up " +:+ path);;
  gj ← json_load path;
  gj ← lift (makeMRN_cleanup gj);
  json_dump path gj.

(** The command lines of lines 90-109, as the layer is expected to run
    them. *)
Definition mrn_wget : list string :=
  ["wget";
   "https://maps.dft.gov.uk/major-road-network-shapefile/Major_Road_Network_2018_Open_Roads.zip"].

Definition mrn_unzip : list string :=
  ["unzip"; "Major_Road_Network_2018_Open_Roads.zip"; "-d"; "mrn"].

Definition mrn_ogr2ogr : list string :=
  ["ogr2ogr"; "-f"; "GeoJSON"; "mrn/mrn.geojson"; "-t_srs"; "EPSG:4326";
   "mrn/Major_Road_Network_2018_Open_Roads.shp"].

Definition mrn_commands : list (list string) :=
  [mrn_wget; mrn_unzip; mrn_ogr2ogr].

(** Lines 80-135. *)
Definition makeMRN : M unit :=
  makeMRN_clean;;
  run ["wget";
       "https://maps.dft.gov.uk/major-road-network-shapefile/Major_Road_Network_2018_Open_Roads.zip"];;
  run ["unzip"; "Major_Road_Network_2018_Open_Roads.zip"; "-d"; "mrn"];;
  run ["ogr2ogr"; "-f"; "GeoJSON"; "mrn/mrn.geojson"; "-t_srs"; "EPSG:4326";
       "mrn/Major_Road_Network_2018_Open_Roads.shp"];;
  makeMRN_rewrite;;
  run (tippecanoe "mrn/mrn.geojson" "mrn.pmtiles").

(** Lines 140-145. *)
Definition makeParliamentaryConstituencies_clean : M unit :=
  try_pass (
    os_remove "boundary_lines.zip";;
    shutil_rmtree "boundary_lines";;
    os_remove "parliamentary_constituencies.pmtiles").

(** The command lines of lines 148-183, as the layer is expected to run
    them. *)
Definition constituencies_wget : list string :=
  ["wget";
   "https://api.os.uk/downloads/v1/products/BoundaryLine/downloads?area=GB&format=GeoPackage&redirect";
   "-O"; "boundary_lines.zip"].

Definition constituencies_unzip : list string :=
  ["unzip"; "boundary_lines.zip"; "-d"; "boundary_lines"].

Definition constituencies_ogr2ogr : list string :=
  ["ogr2ogr"; "-f"; "GeoJSON";
   "boundary_lines/parliamentary_constituencies.geojson";
   "-t_srs"; "EPSG:4326"; "boundary_lines/Data/bdline_gb.gpkg"; "-sql";
   "SELECT Name, Census_Code, geometry FROM westminster_const WHERE Census_Code LIKE 'E%'"].

Definition constituencies_tippecanoe : list string :=
  ["tippecanoe"; "boundary_lines/parliamentary_constituencies.geojson";
   "-o"; "parliamentary_constituencies.pmtiles"].

Definition constituencies_commands : list (list string) :=
  [constituencies_wget; constituencies_unzip; constituencies_ogr2ogr;
   constituencies_tippecanoe].

(** Lines 138-183. *)
Definition makeParliamentaryConstituencies : M unit :=
  makeParliamentaryConstituencies_clean;;
  run ["wget";
       "https://api.os.uk/downloads/v1/products/BoundaryLine/downloads?area=GB&format=GeoPackage&redirect";
       "-O"; "boundary_lines.zip"];;
  run ["unzip"; "boundary_lines.zip"; "-d"; "boundary_lines"];;
  run ["ogr2ogr"; "-f"; "GeoJSON";
       "boundary_lines/parliamentary_constituencies.geojson";
       "-t_srs"; "EPSG:4326"; "boundary_lines/Data/bdline_gb.gpkg"; "-sql";
       "SELECT Name, Census_Code, geometry FROM westminster_const WHERE Census_Code LIKE 'E%'"];;
  run (tippecanoe "boundary_lines/parliamentary_constituencies.geojson"
                  "parliamentary_constituencies.pmtiles").

(** Lines 27-35: the four calls of [main], after [parse_args]. *)
Definition main (a : args) : M unit :=
  generatePolygonAmenity a "school" "schools";;
  generatePolygonAmenity a "hospital" "hospitals";;
  makeMRN;;
  makeParliamentaryConstituencies.

(** The commands of a layer of amenities, in the order of the source. *)
Definition amenity_commands (a : args) (amenity filename : string)
    : list (list string) :=
  [ osmium_tags_filter a amenity filename;
    osmium_export filename;
    tippecanoe (filename +:+ ".geojson") (filename +:+ ".pmtiles") ].

(** The fourteen commands of a run, written out: what [main] is expected
    to run, in this order. *)
Definition all_commands (a : args) : list (list string) :=
  [ ["osmium"; "tags-filter"; osm_input a; "nwr/amenity=school"; "-o";
     "schools.osm.pbf"];
    ["osmium"; "export"; "schools.osm.pbf"; "--geometry-type=polygon"; "-o";
     "schools.geojson"];
    ["tippecanoe"; "schools.geojson"; "-o"; "schools.pmtiles"];
    ["osmium"; "tags-filter"; osm_input a; "nwr/amenity=hospital"; "-o";
     "hospitals.osm.pbf"];
    ["osmium"; "export"; "hospitals.osm.pbf"; "--geometry-type=polygon"; "-o";
     "hospitals.geojson"];
    ["tippecanoe"; "hospitals.geojson"; "-o"; "hospitals.pmtiles"];
    mrn_wget; mrn_unzip; mrn_ogr2ogr;
    ["tippecanoe"; "mrn/mrn.geojson"; "-o"; "mrn.pmtiles"];
    constituencies_wget; constituencies_unzip; constituencies_ogr2ogr;
    constituencies_tippecanoe ].

(** The shape shared by [remove_extra_properties] and the clean-up of
    [makeMRN]: announce, read the file, transform the value, write it back
    to the same path. *)
Definition rewrite_json (msg path : string) (f : pyval → result exn pyval)
    : M unit :=
  print msg;;
  gj ← json_load path;
  gj ← lift (f gj);
  json_dump path gj.

(** * Theorems *)

Implicit Types (w : world X) (e : exn) (a : args).

(** ** Rewriting a file in place *)

Lemma remove_extra_properties_rewrite path :
  remove_extra_properties path =
  rewrite_json ("Removing extra properties from " +:+ path) path
    remove_extra_properties_gj.
Proof. done. Qed.

Lemma makeMRN_rewrite_rewrite :
  makeMRN_rewrite =
  rewrite_json "Cleaning up mrn/mrn.geojson" "mrn/mrn.geojson" makeMRN_cleanup.
Proof. done. Qed.

Lemma silent_rewrite_json msg path f : silent (rewrite_json msg path f).
Proof. unfold rewrite_json. solve_silent. Qed.

Lemma rewrite_json_Ok msg path f w gj gj' :
  path ∉ dirs (w_fs w) → files (w_fs w) !! path = Some (JsonFile gj) →
  f gj = Ok gj' →
  rewrite_json msg path f w =
  (Ok tt, World (Fsys (<[path := JsonFile gj']> (files (w_fs w))) (dirs (w_fs w)))
                (w_ext w) (w_stdout w ++ [msg]) (w_cmds w)).
Proof.
  intros Hd Hf Hgj. unfold rewrite_json. rewrite M_bind_unfold. simpl.
  rewrite M_bind_unfold, (json_load_present path _ gj) by done.
  rewrite M_bind_unfold. unfold lift. rewrite Hgj.
  by rewrite json_dump_Ok by done.
Qed.

Lemma rewrite_json_Raise msg path f w gj e :
  path ∉ dirs (w_fs w) → files (w_fs w) !! path = Some (JsonFile gj) →
  f gj = Raise e →
  rewrite_json msg path f w =
  (Raise e, World (w_fs w) (w_ext w) (w_stdout w ++ [msg]) (w_cmds w)).
Proof.
  intros Hd Hf Hgj. unfold rewrite_json. rewrite M_bind_unfold. simpl.
  rewrite M_bind_unfold, (json_load_present path _ gj) by done.
  rewrite M_bind_unfold. unfold lift. by rewrite Hgj.
Qed.

(** The world after a rewrite that raised: the line is printed, nothing
    else has happened. *)
Lemma rewrite_json_Raise_world msg path f w e :
  (rewrite_json msg path f w).1 = Raise e →
  (rewrite_json msg path f w).2 =
  World (w_fs w) (w_ext w) (w_stdout w ++ [msg]) (w_cmds w).
Proof.
  unfold rewrite_json. rewrite M_bind_unfold. simpl. rewrite M_bind_unfold.
  set (w1 := World _ _ _ _).
  pose proof (json_load_world path w1) as Hw.
  destruct (json_load path w1) as [[gj|e1] w2]; simpl in *; subst w2; [|done].
  rewrite M_bind_unfold. simpl. destruct (f gj) as [gj'|e2]; [|done].
  unfold json_dump. rewrite M_bind_unfold. simpl. by case_decide.
Qed.

(** A rewrite that raises, at any of its steps, leaves every file as it
    was. *)
Lemma rewrite_json_Raise_keeps msg path f w e :
  (rewrite_json msg path f w).1 = Raise e →
  w_fs (rewrite_json msg path f w).2 = w_fs w.
Proof. intros He. by rewrite (rewrite_json_Raise_world _ _ _ _ _ He). Qed.

(** C16. [remove_extra_properties] overwrites its input in place: when the
    path holds a collection on which the loop returns, the path holds the
    reduced collection afterwards, every other file is as before, one line
    is printed and no command is run. *)
Theorem remove_extra_properties_Ok path w gj gj' :
  path ∉ dirs (w_fs w) → files (w_fs w) !! path = Some (JsonFile gj) →
  remove_extra_properties_gj gj = Ok gj' →
  remove_extra_properties path w =
  (Ok tt, World (Fsys (<[path := JsonFile gj']> (files (w_fs w))) (dirs (w_fs w)))
                (w_ext w)
                (w_stdout w ++ ["Removing extra properties from " +:+ path])
                (w_cmds w)).
Proof. rewrite remove_extra_properties_rewrite. apply rewrite_json_Ok. Qed.

(** C17. When [remove_extra_properties] raises (the file is missing or is
    not JSON, a feature has no dict of properties), the files are untouched:
    nothing is written before the loop has returned. *)
Theorem remove_extra_properties_Raise_keeps path w e :
  (remove_extra_properties path w).1 = Raise e →
  w_fs (remove_extra_properties path w).2 = w_fs w.
Proof. rewrite remove_extra_properties_rewrite. apply rewrite_json_Raise_keeps. Qed.

(** C39. When the clean-up of [mrn/mrn.geojson] raises (the file is missing
    or is not JSON, the collection has no [name] or no [crs], a feature has
    not the expected shape, a coordinate is not a float), the file is as
    [ogr2ogr] left it: the line [Cleaning up mrn/mrn.geojson] has been
    printed and nothing else has happened. *)
Theorem makeMRN_rewrite_Raise w e :
  (makeMRN_rewrite w).1 = Raise e →
  (makeMRN_rewrite w).2 =
  World (w_fs w) (w_ext w) (w_stdout w ++ ["Cleaning up mrn/mrn.geojson"])
        (w_cmds w).
Proof. rewrite makeMRN_rewrite_rewrite. apply rewrite_json_Raise_world. Qed.

(** ** The clean-up of a previous run *)

(** C20. The three deletions of [generatePolygonAmenity] share one
    [try]: when the first file, the filtered extract, is absent, the
    exception leaves the block, and the GeoJSON and the tiles of the previous
    run stay where they are. *)
Theorem generatePolygonAmenity_clean_stops filename w :
  files (w_fs w) !! (filename +:+ ".osm.pbf") = None →
  generatePolygonAmenity_clean filename w = (Ok tt, w).
Proof.
  intros Hf. unfold generatePolygonAmenity_clean. rewrite try_pass_unfold.
  destruct (os_remove_missing _ w Hf) as [e He].
  by rewrite (M_bind_Raise_l _ _ _ _ _ He).
Qed.

(** C21. When the three files of the previous run are there, the clean-up
    deletes the three of them, and nothing else. *)
Theorem generatePolygonAmenity_clean_all filename w f1 f2 f3 :
  let fs := w_fs w in
  (∀ ext, filename +:+ ext ∉ dirs fs) →
  files fs !! (filename +:+ ".osm.pbf") = Some f1 →
  files fs !! (filename +:+ ".geojson") = Some f2 →
  files fs !! (filename +:+ ".pmtiles") = Some f3 →
  generatePolygonAmenity_clean filename w =
  (Ok tt, World (Fsys (delete (filename +:+ ".pmtiles")
                      (delete (filename +:+ ".geojson")
                      (delete (filename +:+ ".osm.pbf") (files fs))))
                      (dirs fs))
                (w_ext w) (w_stdout w) (w_cmds w)).
Proof.
  intros fs Hd H1 H2 H3. unfold generatePolygonAmenity_clean.
  rewrite try_pass_unfold.
  erewrite M_bind_Ok_l by (by eapply os_remove_present).
  erewrite M_bind_Ok_l.
  2:{ eapply os_remove_present; simpl; [apply Hd|].
      rewrite lookup_delete_ne; [done|]. by apply string_app_ne_l. }
  erewrite os_remove_present; simpl; [done|apply Hd|].
  rewrite !lookup_delete_ne; [done|by apply string_app_ne_l..].
Qed.

(** The clean-up of [makeMRN] has the same shape: without the archive of the
    previous run, the directory [mrn] and the tiles stay. *)
Lemma makeMRN_clean_stops w :
  files (w_fs w) !! "Major_Road_Network_2018_Open_Roads.zip" = None →
  makeMRN_clean w = (Ok tt, w).
Proof.
  intros Hf. unfold makeMRN_clean. rewrite try_pass_unfold.
  destruct (os_remove_missing _ w Hf) as [e He].
  by rewrite (M_bind_Raise_l _ _ _ _ _ He).
Qed.

(** The files after the three deletions of [makeMRN], when each finds what
    it deletes. *)
Lemma makeMRN_clean_present w f1 f2 :
  "Major_Road_Network_2018_Open_Roads.zip" ∉ dirs (w_fs w) →
  files (w_fs w) !! "Major_Road_Network_2018_Open_Roads.zip" = Some f1 →
  "mrn" ∈ dirs (w_fs w) →
  "mrn.pmtiles" ∉ dirs (w_fs w) → files (w_fs w) !! "mrn.pmtiles" = Some f2 →
  w_fs (makeMRN_clean w).2 =
  Fsys (delete "mrn.pmtiles"
          (filter (λ kv, ¬ under "mrn" kv.1)
             (delete "Major_Road_Network_2018_Open_Roads.zip" (files (w_fs w)))))
       (filter (λ d, d ≠ "mrn" ∧ ¬ under "mrn" d) (dirs (w_fs w))).
Proof.
  intros Hd1 Hf1 Hd Hd2 Hf2. unfold makeMRN_clean. rewrite try_pass_unfold.
  erewrite M_bind_Ok_l by (by eapply os_remove_present).
  erewrite M_bind_Ok_l by (by eapply shutil_rmtree_present).
  erewrite os_remove_present; simpl; [done|set_solver|].
  rewrite lookup_rmtree, decide_False by by vm_compute.
  by rewrite lookup_delete_ne.
Qed.

(** C22. When the archive, the directory [mrn] and the tiles of the previous
    run are there, the clean-up of [makeMRN] removes the archive, the tiles,
    the directory and every file below it, and keeps every other file. *)
Theorem makeMRN_clean_all w f1 f2 p :
  "Major_Road_Network_2018_Open_Roads.zip" ∉ dirs (w_fs w) →
  files (w_fs w) !! "Major_Road_Network_2018_Open_Roads.zip" = Some f1 →
  "mrn" ∈ dirs (w_fs w) →
  "mrn.pmtiles" ∉ dirs (w_fs w) → files (w_fs w) !! "mrn.pmtiles" = Some f2 →
  "mrn" ∉ dirs (w_fs (makeMRN_clean w).2) ∧
  files (w_fs (makeMRN_clean w).2) !! p =
  if decide (p = "Major_Road_Network_2018_Open_Roads.zip" ∨
             p = "mrn.pmtiles" ∨ under "mrn" p)
  then None else files (w_fs w) !! p.
Proof.
  intros Hd1 Hf1 Hd Hd2 Hf2.
  rewrite (makeMRN_clean_present w f1 f2) by done. simpl. split; [set_solver|].
  destruct (decide (p = "mrn.pmtiles")) as [->|Hp].
  { rewrite lookup_delete_eq. by rewrite decide_True by auto. }
  rewrite lookup_delete_ne, lookup_rmtree by done.
  destruct (decide (under "mrn" p)) as [Hu|Hu].
  { by rewrite decide_True by auto. }
  destruct (decide (p = "Major_Road_Network_2018_Open_Roads.zip")) as [->|Hz].
  { rewrite lookup_delete_eq. by rewrite decide_True by auto. }
  rewrite lookup_delete_ne by done. by rewrite decide_False by tauto.
Qed.

(** C23. The clean-up of [makeMRN] can stop half way: when the archive of
    the previous run is there and the directory [mrn] is not, the archive
    is deleted, [shutil.rmtree] raises, and the tiles of the previous run
    are not deleted. *)
Theorem makeMRN_clean_partial w f1 :
  "Major_Road_Network_2018_Open_Roads.zip" ∉ dirs (w_fs w) →
  files (w_fs w) !! "Major_Road_Network_2018_Open_Roads.zip" = Some f1 →
  "mrn" ∉ dirs (w_fs w) →
  makeMRN_clean w =
  (Ok tt,
   World (Fsys (delete "Major_Road_Network_2018_Open_Roads.zip" (files (w_fs w)))
               (dirs (w_fs w)))
         (w_ext w) (w_stdout w) (w_cmds w)).
Proof.
  intros Hd1 Hf1 Hd. unfold makeMRN_clean. rewrite try_pass_unfold.
  erewrite M_bind_Ok_l by (by eapply os_remove_present).
  set (w1 := World _ _ _ _).
  destruct (shutil_rmtree_missing "mrn" w1 Hd) as [e He].
  by rewrite (M_bind_Raise_l _ _ _ _ _ He).
Qed.

(** ** Failing commands *)

(** C18. There is no retry and no recovery: when [osmium tags-filter] exits
    with a status that is not 0, [generatePolygonAmenity] raises
    [CalledProcessError] with that status, having run this one command. *)
Theorem generatePolygonAmenity_fail_fast a amenity filename w w1 rc fs x :
  generatePolygonAmenity_clean filename w = (Ok tt, w1) →
  tool_exec (osmium_tags_filter a amenity filename) (w_fs w1) (w_ext w1)
    = (Exited rc, fs, x) →
  rc ≠ 0%Z →
  generatePolygonAmenity a amenity filename w =
  (Raise (CalledProcessError rc (osmium_tags_filter a amenity filename)),
   World fs x
     (w_stdout w1 ++
        ["> " +:+ join " " (osmium_tags_filter a amenity filename)])
     (w_cmds w ++ [osmium_tags_filter a amenity filename])).
Proof.
  intros Hc Ht Hrc. unfold generatePolygonAmenity.
  rewrite (M_bind_Ok_l _ _ _ _ _ Hc).
  erewrite M_bind_Raise_l by (by eapply run_fails).
  assert (silent (generatePolygonAmenity_clean filename)) as Hs
    by (unfold generatePolygonAmenity_clean; solve_silent).
  specialize (Hs w). rewrite Hc in Hs. simpl in Hs. by rewrite Hs.
Qed.

(** C19. A coordinate that [trim_precision] rejects stops [makeMRN] before
    the tiles are built: when [makeMRN] raises [Exception], it has run
    [wget], [unzip] and [ogr2ogr], and not [tippecanoe]. *)
Theorem makeMRN_Exception_no_tiles w d :
  (makeMRN w).1 = Raise (Exception d) →
  w_cmds (makeMRN w).2 = w_cmds w ++ mrn_commands.
Proof.
  unfold makeMRN. rewrite M_bind_unfold.
  assert (silent makeMRN_clean) as Hs by (unfold makeMRN_clean; solve_silent).
  specialize (Hs w). pose proof (try_pass_Ok _ w : (makeMRN_clean w).1 = _).
  destruct (makeMRN_clean w) as [[[]|] w0]; simplify_eq/=.
  rewrite <- Hs. intros He.
  apply run_bind_Exception in He as Hr; destruct Hr as (w1 & Hr1 & Hk).
  rewrite Hk in He |- *. clear Hk.
  apply run_bind_Exception in He as Hr; destruct Hr as (w2 & Hr2 & Hk).
  rewrite Hk in He |- *. clear Hk.
  apply run_bind_Exception in He as Hr; destruct Hr as (w3 & Hr3 & Hk).
  rewrite Hk in He |- *. clear Hk.
  apply run_cmds in Hr1 as Ht1, Hr2 as Ht2, Hr3 as Ht3.
  rewrite M_bind_unfold in He |- *.
  pose proof (silent_rewrite_json "Cleaning up mrn/mrn.geojson"
                "mrn/mrn.geojson" makeMRN_cleanup w3) as Hs3.
  rewrite <- makeMRN_rewrite_rewrite in Hs3.
  destruct (makeMRN_rewrite w3) as [[[]|e] w4]; simpl in *.
  - by apply run_not_Exception in He.
  - rewrite Hs3, Ht3, Ht2, Ht1, <- !app_assoc. done.
Qed.

(** ** The order of the external commands *)

Lemma runs_generatePolygonAmenity a amenity filename :
  runs (generatePolygonAmenity a amenity filename)
       (amenity_commands a amenity filename).
Proof.
  unfold generatePolygonAmenity, generatePolygonAmenity_clean, amenity_commands.
  rewrite remove_extra_properties_rewrite.
  pose proof silent_rewrite_json. solve_runs.
Qed.

Lemma runs_makeMRN :
  runs makeMRN (mrn_commands ++ [tippecanoe "mrn/mrn.geojson" "mrn.pmtiles"]).
Proof.
  unfold makeMRN, makeMRN_clean, mrn_commands. rewrite makeMRN_rewrite_rewrite.
  pose proof silent_rewrite_json. solve_runs.
Qed.

Lemma runs_makeParliamentaryConstituencies :
  runs makeParliamentaryConstituencies constituencies_commands.
Proof.
  unfold makeParliamentaryConstituencies, constituencies_commands,
    makeParliamentaryConstituencies_clean. solve_runs.
Qed.

(** C4. [main] runs the commands of the four layers in the order schools,
    hospitals, road network, constituencies: from every world and for every
    behaviour of the tools, the commands run are a prefix of [all_commands],
    and all of them when [main] returns. *)
Theorem main_runs a : runs (main a) (all_commands a).
Proof.
  change (all_commands a) with
    (amenity_commands a "school" "schools" ++
     amenity_commands a "hospital" "hospitals" ++
     (mrn_commands ++ [tippecanoe "mrn/mrn.geojson" "mrn.pmtiles"]) ++
     constituencies_commands).
  unfold main.
  apply runs_bind; [apply runs_generatePolygonAmenity|intros _].
  apply runs_bind; [apply runs_generatePolygonAmenity|intros _].
  apply runs_bind; [apply runs_makeMRN|intros _].
  apply runs_makeParliamentaryConstituencies.
Qed.
(** ** Progress lines *)

Lemma announces_rewrite_json msg path f :
  is_command_line msg = false → announces (rewrite_json msg path f).
Proof.
  intros Hmsg. unfold rewrite_json.
  apply announces_bind; [by apply announces_print|intros _]. solve_announces.
Qed.

Lemma announces_generatePolygonAmenity a amenity filename :
  announces (generatePolygonAmenity a amenity filename).
Proof.
  unfold generatePolygonAmenity, generatePolygonAmenity_clean.
  rewrite remove_extra_properties_rewrite.
  pose proof (announces_rewrite_json
                ("Removing extra properties from " +:+ (filename +:+ ".geojson"))
                (filename +:+ ".geojson") remove_extra_properties_gj eq_refl).
  solve_announces.
Qed.

Lemma announces_makeMRN : announces makeMRN.
Proof.
  unfold makeMRN, makeMRN_clean. rewrite makeMRN_rewrite_rewrite.
  pose proof (announces_rewrite_json "Cleaning up mrn/mrn.geojson"
                "mrn/mrn.geojson" makeMRN_cleanup eq_refl).
  solve_announces.
Qed.

Lemma announces_makeParliamentaryConstituencies :
  announces makeParliamentaryConstituencies.
Proof.
  unfold makeParliamentaryConstituencies,
    makeParliamentaryConstituencies_clean. solve_announces.
Qed.

(** C15. Standard output names each external command as it is invoked: the
    lines that [main] prints and that start with [> ] are the command lines
    of the commands it has run, joined by spaces, one line per command and in
    the order in which they ran, whether [main] returns or raises. *)
Theorem main_announces a : announces (main a).
Proof.
  unfold main. pose proof announces_generatePolygonAmenity.
  pose proof announces_makeMRN.
  pose proof announces_makeParliamentaryConstituencies. solve_announces.
Qed.

(** ** What the tile builder reads *)

(** A rewrite that returns has read a JSON value, transformed it, and left
    the result at the same path. *)
Lemma rewrite_json_Ok_inv msg path f w w' :
  rewrite_json msg path f w = (Ok tt, w') →
  ∃ gj gj', path ∉ dirs (w_fs w) ∧
    files (w_fs w) !! path = Some (JsonFile gj) ∧ f gj = Ok gj' ∧
    w' = World (Fsys (<[path := JsonFile gj']> (files (w_fs w))) (dirs (w_fs w)))
               (w_ext w) (w_stdout w ++ [msg]) (w_cmds w).
Proof.
  unfold rewrite_json. rewrite M_bind_unfold. simpl.
  intros (gj & w1 & (-> & Hd & Hf)%json_load_Ok
             & (gj' & w2 & Hl & Hdump)%M_bind_Ok)%M_bind_Ok.
  simpl in *. injection Hl as Hgj <-. exists gj, gj'.
  rewrite json_dump_Ok in Hdump by done. by injection Hdump as <-.
Qed.

(** The world in which the rest of a program runs after a rewrite that
    returned. *)
Lemma rewrite_json_bind_Ok {A} msg path f (k : M A) w (r : A) w' :
  (rewrite_json msg path f;; k) w = (Ok r, w') ↔
  ∃ gj gj', path ∉ dirs (w_fs w) ∧
    files (w_fs w) !! path = Some (JsonFile gj) ∧ f gj = Ok gj' ∧
    k (World (Fsys (<[path := JsonFile gj']> (files (w_fs w))) (dirs (w_fs w)))
             (w_ext w) (w_stdout w ++ [msg]) (w_cmds w)) = (Ok r, w').
Proof.
  rewrite M_bind_Ok. split.
  - intros ([] & w1 & (gj & gj' & ? & ? & ? & ->)%rewrite_json_Ok_inv & Hk).
    by exists gj, gj'.
  - intros (gj & gj' & Hd & Hf & Hgj & Hk). eexists tt, _. split; [|done].
    by apply (rewrite_json_Ok _ _ _ _ gj).
Qed.

(** The layers start on the files their clean-up left, with the output and
    the commands of the run so far. *)
Lemma generatePolygonAmenity_unfold a amenity filename w :
  generatePolygonAmenity a amenity filename w =
  (run (osmium_tags_filter a amenity filename);;
   run (osmium_export filename);;
   remove_extra_properties (filename +:+ ".geojson");;
   run (tippecanoe (filename +:+ ".geojson") (filename +:+ ".pmtiles")))
    (World (w_fs (generatePolygonAmenity_clean filename w).2) (w_ext w)
           (w_stdout w) (w_cmds w)).
Proof. apply try_pass_bind. solve_files_only. Qed.

Lemma makeMRN_unfold w :
  makeMRN w =
  (run mrn_wget;; run mrn_unzip;; run mrn_ogr2ogr;; makeMRN_rewrite;;
   run (tippecanoe "mrn/mrn.geojson" "mrn.pmtiles"))
    (World (w_fs (makeMRN_clean w).2) (w_ext w) (w_stdout w) (w_cmds w)).
Proof. apply try_pass_bind. solve_files_only. Qed.

Lemma makeParliamentaryConstituencies_unfold w :
  makeParliamentaryConstituencies w =
  (run constituencies_wget;; run constituencies_unzip;;
   run constituencies_ogr2ogr;; run constituencies_tippecanoe)
    (World (w_fs (makeParliamentaryConstituencies_clean w).2) (w_ext w)
           (w_stdout w) (w_cmds w)).
Proof. apply try_pass_bind. solve_files_only. Qed.

(** C5. [generatePolygonAmenity] returns exactly when, started on the files
    its clean-up left, [osmium tags-filter] exits with status 0, then
    [osmium export] on the files the filter left, the GeoJSON of the layer
    in the files the export left is a JSON value [gj] on which the reduction
    returns some [gj'], and [tippecanoe], started on the files the export
    left with [gj'] in place of [gj], exits with status 0.  The files and
    the outside world are then those [tippecanoe] left, four lines have
    been printed and the three commands have been recorded, in this
    order. *)
Theorem generatePolygonAmenity_tiles a amenity filename w w' :
  generatePolygonAmenity a amenity filename w = (Ok tt, w') ↔
  ∃ fs1 x1 fs2 x2 gj gj' fs3 x3,
    tool_exec (osmium_tags_filter a amenity filename)
      (w_fs (generatePolygonAmenity_clean filename w).2) (w_ext w)
      = (Exited 0, fs1, x1) ∧
    tool_exec (osmium_export filename) fs1 x1 = (Exited 0, fs2, x2) ∧
    filename +:+ ".geojson" ∉ dirs fs2 ∧
    files fs2 !! (filename +:+ ".geojson") = Some (JsonFile gj) ∧
    remove_extra_properties_gj gj = Ok gj' ∧
    tool_exec (tippecanoe (filename +:+ ".geojson") (filename +:+ ".pmtiles"))
      (Fsys (<[filename +:+ ".geojson" := JsonFile gj']> (files fs2)) (dirs fs2))
      x2 = (Exited 0, fs3, x3) ∧
    w' = World fs3 x3
           (w_stdout w ++
              ["> " +:+ join " " (osmium_tags_filter a amenity filename);
               "> " +:+ join " " (osmium_export filename);
               "Removing extra properties from " +:+ (filename +:+ ".geojson");
               "> " +:+ join " " (tippecanoe (filename +:+ ".geojson")
                                             (filename +:+ ".pmtiles"))])
           (w_cmds w ++ amenity_commands a amenity filename).
Proof.
  rewrite generatePolygonAmenity_unfold, remove_extra_properties_rewrite.
  rewrite run_bind_Ok. setoid_rewrite run_bind_Ok.
  setoid_rewrite rewrite_json_bind_Ok. setoid_rewrite run_Ok. simpl.
  unfold amenity_commands. repeat setoid_rewrite <- app_assoc. simpl.
  naive_solver.
Qed.

(** C9. [makeMRN] returns exactly when, started on the files its clean-up
    left, [wget], [unzip] and [ogr2ogr] exit with status 0, each on the
    files the one before left, [mrn/mrn.geojson] in the files [ogr2ogr] left
    is a JSON value [gj] on which the clean-up returns some [gj'], and
    [tippecanoe], started on the files [ogr2ogr] left with [gj'] in place
    of [gj], exits with status 0. *)
Theorem makeMRN_tiles w w' :
  makeMRN w = (Ok tt, w') ↔
  ∃ fs1 x1 fs2 x2 fs3 x3 gj gj' fs4 x4,
    tool_exec mrn_wget (w_fs (makeMRN_clean w).2) (w_ext w)
      = (Exited 0, fs1, x1) ∧
    tool_exec mrn_unzip fs1 x1 = (Exited 0, fs2, x2) ∧
    tool_exec mrn_ogr2ogr fs2 x2 = (Exited 0, fs3, x3) ∧
    "mrn/mrn.geojson" ∉ dirs fs3 ∧
    files fs3 !! "mrn/mrn.geojson" = Some (JsonFile gj) ∧
    makeMRN_cleanup gj = Ok gj' ∧
    tool_exec (tippecanoe "mrn/mrn.geojson" "mrn.pmtiles")
      (Fsys (<["mrn/mrn.geojson" := JsonFile gj']> (files fs3)) (dirs fs3))
      x3 = (Exited 0, fs4, x4) ∧
    w' = World fs4 x4
           (w_stdout w ++
              ["> " +:+ join " " mrn_wget; "> " +:+ join " " mrn_unzip;
               "> " +:+ join " " mrn_ogr2ogr; "Cleaning up mrn/mrn.geojson";
               "> " +:+ join " " (tippecanoe "mrn/mrn.geojson" "mrn.pmtiles")])
           (w_cmds w ++ mrn_commands ++
              [tippecanoe "mrn/mrn.geojson" "mrn.pmtiles"]).
Proof.
  rewrite makeMRN_unfold, makeMRN_rewrite_rewrite.
  rewrite run_bind_Ok. do 2 setoid_rewrite run_bind_Ok.
  setoid_rewrite rewrite_json_bind_Ok. setoid_rewrite run_Ok. simpl.
  unfold mrn_commands. repeat setoid_rewrite <- app_assoc. simpl.
  naive_solver.
Qed.

(** C35. The layer of the constituencies has no rewrite: it returns exactly
    when [wget], [unzip], [ogr2ogr] and [tippecanoe] exit with status 0,
    the first on the files the clean-up left and each of the others on the
    files the one before left, so that the tiles are built from the GeoJSON
    as [ogr2ogr] wrote it. *)
Theorem makeParliamentaryConstituencies_tiles w w' :
  makeParliamentaryConstituencies w = (Ok tt, w') ↔
  ∃ fs1 x1 fs2 x2 fs3 x3 fs4 x4,
    tool_exec constituencies_wget
      (w_fs (makeParliamentaryConstituencies_clean w).2) (w_ext w)
      = (Exited 0, fs1, x1) ∧
    tool_exec constituencies_unzip fs1 x1 = (Exited 0, fs2, x2) ∧
    tool_exec constituencies_ogr2ogr fs2 x2 = (Exited 0, fs3, x3) ∧
    tool_exec constituencies_tippecanoe fs3 x3 = (Exited 0, fs4, x4) ∧
    w' = World fs4 x4
           (w_stdout w ++
              ["> " +:+ join " " constituencies_wget;
               "> " +:+ join " " constituencies_unzip;
               "> " +:+ join " " constituencies_ogr2ogr;
               "> " +:+ join " " constituencies_tippecanoe])
           (w_cmds w ++ constituencies_commands).
Proof.
  rewrite makeParliamentaryConstituencies_unfold.
  rewrite run_bind_Ok. do 2 setoid_rewrite run_bind_Ok.
  setoid_rewrite run_Ok. simpl.
  unfold constituencies_commands. repeat setoid_rewrite <- app_assoc. simpl.
  naive_solver.
Qed.
End pipeline.

(** * The theorems at the concrete world *)

Lemma remove_extra_properties_Ok_witness :
  remove_extra_properties "schools.geojson" (demo_world "wget" 4) =
  (Ok tt,
   World (Fsys (<["schools.geojson" :=
                   JsonFile (reduce_collection schools_policy demo_collection)]>
                  demo_files) {[ "mrn" ]})
         ("wget", 4%Z) ["Removing extra properties from schools.geojson"] []).
Proof.
  apply (remove_extra_properties_Ok "schools.geojson" (demo_world "wget" 4)
           demo_collection).
  - simpl. set_solver.
  - reflexivity.
  - reflexivity.
Defined.

Lemma remove_extra_properties_Raise_keeps_witness :
  w_fs (remove_extra_properties "hospitals.geojson" (demo_world "wget" 4)).2 =
  w_fs (demo_world "wget" 4).
Proof.
  apply (remove_extra_properties_Raise_keeps _ _
           (FileNotFoundError "hospitals.geojson")).
  reflexivity.
Defined.

Lemma generatePolygonAmenity_clean_stops_witness :
  generatePolygonAmenity_clean "schools" (demo_world "wget" 4) =
  (Ok tt, demo_world "wget" 4).
Proof. apply generatePolygonAmenity_clean_stops. reflexivity. Defined.

Lemma generatePolygonAmenity_clean_all_witness :
  generatePolygonAmenity_clean "schools" demo_world_complete =
  (Ok tt,
   World (Fsys (delete "schools.pmtiles" (delete "schools.geojson"
                 (delete "schools.osm.pbf"
                    (<[ "schools.osm.pbf" := OtherFile "extract" ]> demo_files))))
               ∅)
         ("wget", 4%Z) [] []).
Proof.
  apply (generatePolygonAmenity_clean_all "schools" demo_world_complete
           (OtherFile "extract") (JsonFile demo_collection)
           (OtherFile "tiles of the last run")).
  - intros ext. simpl. set_solver.
  - reflexivity.
  - reflexivity.
  - reflexivity.
Defined.

Lemma generatePolygonAmenity_fail_fast_witness :
  generatePolygonAmenity demo_args "school" "schools" (demo_world "osmium" 1) =
  (Raise (CalledProcessError 1 (osmium_tags_filter demo_args "school" "schools")),
   World (Fsys demo_files {[ "mrn" ]}) ("osmium", 1%Z)
     ["> osmium tags-filter england-latest.osm.pbf nwr/amenity=school -o schools.osm.pbf"]
     [osmium_tags_filter demo_args "school" "schools"]).
Proof.
  apply (generatePolygonAmenity_fail_fast demo_args "school" "schools"
           (demo_world "osmium" 1) (demo_world "osmium" 1) 1
           (Fsys demo_files {[ "mrn" ]}) ("osmium", 1%Z)).
  - reflexivity.
  - reflexivity.
  - discriminate.
Defined.

Lemma makeMRN_Exception_no_tiles_witness :
  w_cmds (makeMRN (demo_world "wget" 0)).2 = mrn_commands.
Proof.
  apply (makeMRN_Exception_no_tiles (demo_world "wget" 0) (PyStr "abc")).
  reflexivity.
Defined.

Lemma makeMRN_clean_all_witness :
  "mrn" ∉ dirs (w_fs (makeMRN_clean (demo_world_roads
     (<["Major_Road_Network_2018_Open_Roads.zip" := OtherFile "archive"]>
        demo_roads))).2) ∧
  files (w_fs (makeMRN_clean (demo_world_roads
     (<["Major_Road_Network_2018_Open_Roads.zip" := OtherFile "archive"]>
        demo_roads))).2) !! "mrn/mrn.geojson" =
  if decide ("mrn/mrn.geojson" = "Major_Road_Network_2018_Open_Roads.zip" ∨
             "mrn/mrn.geojson" = "mrn.pmtiles" ∨ under "mrn" "mrn/mrn.geojson")
  then None
  else <["Major_Road_Network_2018_Open_Roads.zip" := OtherFile "archive"]>
         demo_roads !! "mrn/mrn.geojson".
Proof.
  apply (makeMRN_clean_all
           (demo_world_roads
              (<["Major_Road_Network_2018_Open_Roads.zip" := OtherFile "archive"]>
                 demo_roads))
           (OtherFile "archive") (OtherFile "tiles of the last run")).
  - simpl. set_solver.
  - reflexivity.
  - simpl. set_solver.
  - simpl. set_solver.
  - reflexivity.
Defined.

Lemma generatePolygonAmenity_tiles_witness :
  generatePolygonAmenity demo_args "school" "schools" (demo_world "wget" 4) =
  (Ok tt,
   World (Fsys (<["schools.geojson" :=
                   JsonFile (reduce_collection schools_policy demo_collection)]>
                  demo_files) {[ "mrn" ]})
         ("wget", 4%Z)
         ["> osmium tags-filter england-latest.osm.pbf nwr/amenity=school -o schools.osm.pbf";
          "> osmium export schools.osm.pbf --geometry-type=polygon -o schools.geojson";
          "Removing extra properties from schools.geojson";
          "> tippecanoe schools.geojson -o schools.pmtiles"]
         (amenity_commands demo_args "school" "schools")).
Proof.
  apply (proj2 (generatePolygonAmenity_tiles demo_args "school" "schools"
                  (demo_world "wget" 4) _)).
  exists (Fsys demo_files {[ "mrn" ]}), ("wget", 4%Z),
    (Fsys demo_files {[ "mrn" ]}), ("wget", 4%Z), demo_collection,
    (reduce_collection schools_policy demo_collection).
  eexists _, _. split_and!; try reflexivity. simpl. set_solver.
Defined.

Lemma makeMRN_tiles_witness :
  makeMRN (demo_world_roads demo_roads) =
  (Ok tt,
   World (Fsys (<["mrn/mrn.geojson" :=
                   JsonFile (clean_collection
                     [("type", PyStr "FeatureCollection");
                      ("name", PyStr "Major_Road_Network_2018_Open_Roads");
                      ("crs", PyDict [("type", PyStr "name")]);
                      ("features", PyList [example_road [("name1", PyStr "A414")]])]
                     [example_road [("name1", PyStr "A414")]])]> demo_roads)
               {[ "mrn" ]})
         ("wget", 0%Z)
         ["> wget https://maps.dft.gov.uk/major-road-network-shapefile/Major_Road_Network_2018_Open_Roads.zip";
          "> unzip Major_Road_Network_2018_Open_Roads.zip -d mrn";
          "> ogr2ogr -f GeoJSON mrn/mrn.geojson -t_srs EPSG:4326 mrn/Major_Road_Network_2018_Open_Roads.shp";
          "Cleaning up mrn/mrn.geojson";
          "> tippecanoe mrn/mrn.geojson -o mrn.pmtiles"]
         (mrn_commands ++ [tippecanoe "mrn/mrn.geojson" "mrn.pmtiles"])).
Proof.
  apply (proj2 (makeMRN_tiles (demo_world_roads demo_roads) _)).
  exists (Fsys demo_roads {[ "mrn" ]}), ("wget", 0%Z),
    (Fsys demo_roads {[ "mrn" ]}), ("wget", 0%Z),
    (Fsys demo_roads {[ "mrn" ]}), ("wget", 0%Z),
    (example_mrn [("name1", PyStr "A414")]).
  eexists _, _, _. split_and!; try reflexivity. simpl. set_solver.
Defined.

Lemma makeParliamentaryConstituencies_tiles_witness :
  makeParliamentaryConstituencies (demo_world_roads demo_roads) =
  (Ok tt,
   World (Fsys demo_roads {[ "mrn" ]}) ("wget", 0%Z)
         ["> wget https://api.os.uk/downloads/v1/products/BoundaryLine/downloads?area=GB&format=GeoPackage&redirect -O boundary_lines.zip";
          "> unzip boundary_lines.zip -d boundary_lines";
          "> ogr2ogr -f GeoJSON boundary_lines/parliamentary_constituencies.geojson -t_srs EPSG:4326 boundary_lines/Data/bdline_gb.gpkg -sql SELECT Name, Census_Code, geometry FROM westminster_const WHERE Census_Code LIKE 'E%'";
          "> tippecanoe boundary_lines/parliamentary_constituencies.geojson -o parliamentary_constituencies.pmtiles"]
         constituencies_commands).
Proof.
  apply (proj2 (makeParliamentaryConstituencies_tiles
                  (demo_world_roads demo_roads) _)).
  exists (Fsys demo_roads {[ "mrn" ]}), ("wget", 0%Z),
    (Fsys demo_roads {[ "mrn" ]}), ("wget", 0%Z),
    (Fsys demo_roads {[ "mrn" ]}), ("wget", 0%Z).
  eexists _, _. split_and!; reflexivity.
Defined.

Lemma makeMRN_clean_partial_witness :
  makeMRN_clean
    (World (Fsys (<["Major_Road_Network_2018_Open_Roads.zip" := OtherFile "archive"]>
                    demo_roads) ∅) ("wget", 0%Z) [] []) =
  (Ok tt,
   World (Fsys (delete "Major_Road_Network_2018_Open_Roads.zip"
                  (<["Major_Road_Network_2018_Open_Roads.zip" := OtherFile "archive"]>
                     demo_roads)) ∅) ("wget", 0%Z) [] []).
Proof.
  refine (makeMRN_clean_partial
            (World (Fsys (<["Major_Road_Network_2018_Open_Roads.zip" :=
                             OtherFile "archive"]> demo_roads) ∅)
                   ("wget", 0%Z) [] []) (OtherFile "archive") _ _ _).
  - simpl. set_solver.
  - reflexivity.
  - simpl. set_solver.
Defined.

Lemma makeMRN_rewrite_Raise_witness :
  (makeMRN_rewrite (demo_world "wget" 0)).2 =
  World (Fsys demo_files {[ "mrn" ]}) ("wget", 0%Z)
        ["Cleaning up mrn/mrn.geojson"] [].
Proof.
  apply (makeMRN_rewrite_Raise (demo_world "wget" 0) (Exception (PyStr "abc"))).
  reflexivity.
Defined.
